(** * The catalog function resource: create / poll / read / update / delete

    A shallow embedding of
    [internal/providers/pluginfw/products/catalog/resource_function.go].

    The resource is a thin reconciler between the Terraform plugin framework
    and the platform SDK.  Remote calls are effects: they are modelled in a
    state monad whose state carries the remote world, a logical clock and a
    record of every SDK call made, so that "which call was issued, with which
    key, how many times and when" are ordinary propositions.

    Collaborators that live outside the file (the diagnostics list, the
    framework's string value, tfsdk state, the SDK polling helper, the
    struct converters) are embedded by their contract and marked as such. *)

From Stdlib Require Import ZArith String List Bool Lia.
Import ListNotations.

Local Open Scope string_scope.
Local Open Scope Z_scope.
Local Open Scope list_scope.

(** ** Go errors *)

(** A Go [error] value as this file observes it: the text returned by
    [err.Error()] and whether [apierr.IsMissing] accepts it. *)
Record go_error : Type := mk_error
  { Error : string
  ; is_missing : bool }.

Module apierr.
Definition IsMissing (err : go_error) : bool := is_missing err.
End apierr.

Module fmt.
(** [fmt.Errorf] with [%s] verbs only: a fresh error, nothing wrapped. *)
Definition Errorf (text : string) : go_error := mk_error text false.
End fmt.

(** ** Diagnostics (terraform-plugin-framework, package diag) *)

Module diag.

Inductive Severity : Type := SeverityError | SeverityWarning.

Record Diagnostic : Type := mk_diagnostic
  { severity : Severity
  ; Summary : string
  ; Detail : string }.

Definition Diagnostics : Type := list Diagnostic.

Definition NewErrorDiagnostic (summary detail : string) : Diagnostic :=
  mk_diagnostic SeverityError summary detail.

Definition NewWarningDiagnostic (summary detail : string) : Diagnostic :=
  mk_diagnostic SeverityWarning summary detail.

Definition is_error (d : Diagnostic) : bool :=
  match severity d with SeverityError => true | SeverityWarning => false end.

Definition Equal (a b : Diagnostic) : bool :=
  match severity a, severity b with
  | SeverityError, SeverityError | SeverityWarning, SeverityWarning =>
      String.eqb (Summary a) (Summary b) && String.eqb (Detail a) (Detail b)
  | _, _ => false
  end.

Definition Contains (diags : Diagnostics) (d : Diagnostic) : bool :=
  existsb (fun x => Equal x d) diags.

(** [Append] skips a diagnostic that is already in the list. *)
Fixpoint Append (diags : Diagnostics) (more : list Diagnostic) : Diagnostics :=
  match more with
  | [] => diags
  | d :: rest =>
      if Contains diags d then Append diags rest
      else Append (diags ++ [d]) rest
  end.

Definition AddError (diags : Diagnostics) (summary detail : string) : Diagnostics :=
  Append diags [NewErrorDiagnostic summary detail].

Definition HasError (diags : Diagnostics) : bool := existsb is_error diags.

End diag.

(** ** Framework string values (package types) *)

Module types.

Inductive String : Type :=
| StringNull
| StringUnknown
| StringValue (s : string).

(** The known value, or the empty string for null and unknown. *)
Definition ValueString (v : String) : string :=
  match v with StringValue s => s | _ => EmptyString end.

End types.

(** ** SDK structs (package catalog) and their Terraform twins (catalog_tf)

    The struct declarations are not part of the file; the records keep the
    identity attributes the schema names ([name], [catalog_name],
    [schema_name], the read-only [full_name]) and one ordinary attribute. *)

Module catalog.

Record FunctionInfo : Type := mk_FunctionInfo
  { CatalogName : string
  ; SchemaName : string
  ; Name : string
  ; FullName : string
  ; RoutineDefinition : string }.

(** The [Functions] service of a workspace client, over a remote world [W].
    Each method answers and moves the remote world. *)
Record FunctionsInterface (W CreateFunctionRequest UpdateFunction : Type) : Type :=
  { Create : CreateFunctionRequest -> W -> (FunctionInfo + go_error) * W
  ; GetByName : string -> W -> (FunctionInfo + go_error) * W
  ; Update : UpdateFunction -> W -> (FunctionInfo + go_error) * W
  ; DeleteByName : string -> W -> option go_error * W }.

Arguments Create {W CreateFunctionRequest UpdateFunction}.
Arguments GetByName {W CreateFunctionRequest UpdateFunction}.
Arguments Update {W CreateFunctionRequest UpdateFunction}.
Arguments DeleteByName {W CreateFunctionRequest UpdateFunction}.

End catalog.

Module catalog_tf.

Record FunctionInfo : Type := mk_FunctionInfo
  { CatalogName : types.String
  ; SchemaName : types.String
  ; Name : types.String
  ; FullName : types.String
  ; RoutineDefinition : types.String }.

(** The Go zero value of the struct: every attribute null. *)
Definition zero : FunctionInfo :=
  mk_FunctionInfo types.StringNull types.StringNull types.StringNull
                  types.StringNull types.StringNull.

Record DeleteFunctionRequest : Type := mk_DeleteFunctionRequest
  { Name_ : types.String }.

End catalog_tf.

(** ** Attribute paths and tfsdk state *)

Module path.
Inductive Path : Type := Root (attribute : string).
End path.

Module tfsdk.

(** Stored state (and likewise a plan): null, or one object value. *)
Record State : Type := mk_State { Raw : option catalog_tf.FunctionInfo }.

Definition Plan : Type := State.

Definition conversion_error : diag.Diagnostic :=
  diag.NewErrorDiagnostic "Value Conversion Error" "null object".

Definition unknown_attribute (p : string) : diag.Diagnostic :=
  diag.NewErrorDiagnostic "Invalid Attribute Path" p.

(** [s.Get(ctx, &target)] *)
Definition Get (s : State) (target : catalog_tf.FunctionInfo)
  : catalog_tf.FunctionInfo * diag.Diagnostics :=
  match Raw s with
  | Some v => (v, [])
  | None => (target, [conversion_error])
  end.

(** [s.Set(ctx, v)] *)
Definition Set_ (s : State) (v : catalog_tf.FunctionInfo)
  : State * diag.Diagnostics :=
  (mk_State (Some v), []).

(** [s.RemoveResource(ctx)]: the raw value becomes null. *)
Definition RemoveResource (s : State) : State := mk_State None.

Definition attribute (name : string) (v : catalog_tf.FunctionInfo)
  : option types.String :=
  if String.eqb name "catalog_name" then Some (catalog_tf.CatalogName v)
  else if String.eqb name "schema_name" then Some (catalog_tf.SchemaName v)
  else if String.eqb name "name" then Some (catalog_tf.Name v)
  else if String.eqb name "full_name" then Some (catalog_tf.FullName v)
  else if String.eqb name "routine_definition"
       then Some (catalog_tf.RoutineDefinition v)
  else None.

Definition with_attribute (name : string) (x : types.String)
           (v : catalog_tf.FunctionInfo) : option catalog_tf.FunctionInfo :=
  let '(catalog_tf.mk_FunctionInfo c s n f d) := v in
  if String.eqb name "catalog_name" then Some (catalog_tf.mk_FunctionInfo x s n f d)
  else if String.eqb name "schema_name" then Some (catalog_tf.mk_FunctionInfo c x n f d)
  else if String.eqb name "name" then Some (catalog_tf.mk_FunctionInfo c s x f d)
  else if String.eqb name "full_name" then Some (catalog_tf.mk_FunctionInfo c s n x d)
  else if String.eqb name "routine_definition"
       then Some (catalog_tf.mk_FunctionInfo c s n f x)
  else None.

(** [s.GetAttribute(ctx, p, &target)] *)
Definition GetAttribute (s : State) (p : path.Path) (target : types.String)
  : types.String * diag.Diagnostics :=
  let '(path.Root name) := p in
  match Raw s with
  | None => (types.StringNull, [])
  | Some v =>
      match attribute name v with
      | Some x => (x, [])
      | None => (target, [unknown_attribute name])
      end
  end.

(** [s.SetAttribute(ctx, p, value)]: a null state first becomes an object
    with every attribute null. *)
Definition SetAttribute (s : State) (p : path.Path) (x : string)
  : State * diag.Diagnostics :=
  let '(path.Root name) := p in
  let v := match Raw s with Some v => v | None => catalog_tf.zero end in
  match with_attribute name (types.StringValue x) v with
  | Some v' => (mk_State (Some v'), [])
  | None => (s, [unknown_attribute name])
  end.

End tfsdk.

(** ** Requests and responses of the resource life cycle (package resource) *)

Module resource.

Record CreateRequest : Type := { Plan : tfsdk.Plan }.
Record UpdateRequest : Type := { Plan_ : tfsdk.Plan; PriorState : tfsdk.State }.
Record ReadRequest : Type := { State_ : tfsdk.State }.
Record DeleteRequest : Type := { State__ : tfsdk.State }.
Record ImportStateRequest : Type := { ID : string }.

(** Every response carries the diagnostics so far and the state to store;
    the framework seeds both before the call. *)
Record Response : Type := mk_Response
  { State : tfsdk.State
  ; Diagnostics : diag.Diagnostics }.

Definition CreateResponse := Response.
Definition UpdateResponse := Response.
Definition ReadResponse := Response.
Definition DeleteResponse := Response.
Definition ImportStateResponse := Response.

Definition with_Diagnostics (resp : Response) (d : diag.Diagnostics) : Response :=
  mk_Response (State resp) d.

Definition with_State (resp : Response) (s : tfsdk.State) : Response :=
  mk_Response s (Diagnostics resp).

(** [resp.Diagnostics.Append(more...)] *)
Definition Append (resp : Response) (more : diag.Diagnostics) : Response :=
  with_Diagnostics resp (diag.Append (Diagnostics resp) more).

(** [resp.Diagnostics.AddError(summary, detail)] *)
Definition AddError (resp : Response) (summary detail : string) : Response :=
  with_Diagnostics resp (diag.AddError (Diagnostics resp) summary detail).

Definition HasError (resp : Response) : bool :=
  diag.HasError (Diagnostics resp).

(** [resource.ImportStatePassthroughID(ctx, attrPath, req, resp)] *)
Definition ImportStatePassthroughID (attrPath : path.Path)
           (req : ImportStateRequest) (resp : ImportStateResponse)
  : ImportStateResponse :=
  let '(s, d) := tfsdk.SetAttribute (State resp) attrPath (ID req) in
  Append (with_State resp s) d.

End resource.

(** ** Durations and contexts *)

Module time.
(** [time.Duration] counts nanoseconds. *)
Definition Duration : Type := Z.
Definition Second : Duration := 1000000000.
Definition Minute : Duration := 60 * Second.
End time.

Module context.

(** What the reconciler sees of a [context.Context]: the logical instant at
    which the caller cancels or its deadline passes (if any), and the
    user-agent tag set by the resource. *)
Record Context : Type := mk_Context
  { done_at : option Z
  ; user_agent : option string }.

Definition Background : Context := mk_Context None None.

(** [context.WithTimeout(ctx, d)] taken at instant [now]: the earlier of
    the parent's end and [now + d]. *)
Definition WithTimeout (ctx : Context) (now : Z) (d : time.Duration) : Context :=
  mk_Context
    (Some (match done_at ctx with
           | Some t => Z.min t (now + d)
           | None => now + d
           end))
    (user_agent ctx).

Definition deadline (ctx : Context) (now : Z) (d : time.Duration) : Z :=
  match done_at (WithTimeout ctx now d) with Some t => t | None => now + d end.

End context.

Module pluginfwcontext.
Definition SetUserAgentInResourceContext (ctx : context.Context) (name : string)
  : context.Context :=
  context.mk_Context (context.done_at ctx) (Some name).
End pluginfwcontext.

(** ** Effects: remote world, logical clock, call record *)

Section Effects.

Context {W CreateFunctionRequest UpdateFunction : Type}.

(** One SDK call: what was asked and what came back. *)
Inductive Call : Type :=
| CallCreate (req : CreateFunctionRequest) (res : catalog.FunctionInfo + go_error)
| CallGetByName (name : string) (res : catalog.FunctionInfo + go_error)
| CallUpdate (req : UpdateFunction) (res : catalog.FunctionInfo + go_error)
| CallDeleteByName (name : string) (res : option go_error).

Record St : Type := mk_St
  { world : W
  ; clock : Z
  ; calls : list (Z * Call) }.

(** State passing; [None] only when a bounded loop ran out of fuel. *)
Definition M (A : Type) : Type := St -> option (A * St).

Definition ret {A} (a : A) : M A := fun st => Some (a, st).

Definition bind {A B} (m : M A) (k : A -> M B) : M B :=
  fun st => match m st with
            | Some (a, st') => k a st'
            | None => None
            end.

(** A remote call: answer from the world, stamp it in the record. *)
Definition remote {A} (f : W -> A * W) (entry : A -> Call) : M A :=
  fun st =>
    let '(a, w') := f (world st) in
    Some (a, mk_St w' (clock st) (calls st ++ [(clock st, entry a)])).

Definition now : M Z := fun st => Some (clock st, st).

Definition set_clock (t : Z) : M unit :=
  fun st => Some (tt, mk_St (world st) t (calls st)).

Definition out_of_fuel {A} : M A := fun _ => None.

End Effects.

Arguments Call : clear implicits.
Arguments St : clear implicits.
Arguments M : clear implicits.

Notation "x <- m ;; k" := (bind m (fun x => k))
  (at level 61, m at next level, right associativity).

(** ** The workspace client *)

Module databricks.

Record WorkspaceClient (W CreateFunctionRequest UpdateFunction : Type) : Type :=
  { Functions : catalog.FunctionsInterface W CreateFunctionRequest UpdateFunction }.

Arguments Functions {W CreateFunctionRequest UpdateFunction}.

End databricks.

Module common.

(** [GetWorkspaceClient] answers a client together with diagnostics; the
    client is only used when the diagnostics carry no error. *)
Record DatabricksClient (W CreateFunctionRequest UpdateFunction : Type) : Type :=
  { GetWorkspaceClient :
      databricks.WorkspaceClient W CreateFunctionRequest UpdateFunction
      * diag.Diagnostics }.

Arguments GetWorkspaceClient {W CreateFunctionRequest UpdateFunction}.

End common.

(** ** The SDK polling helper (package retries) *)

Module retries.

Record Err : Type := mk_Err
  { Err_ : go_error
  ; Halt_ : bool }.

Definition Continue (err : go_error) : Err := mk_Err err false.
Definition Halt (err : go_error) : Err := mk_Err err true.

(** Why a poll gave up. *)
Inductive PollError : Type :=
| Halted (err : go_error)
| TimedOut (last : go_error).

Definition PollError_Error (e : PollError) : string :=
  match e with
  | Halted err => Error err
  | TimedOut last => String.append "timed out: " (Error last)
  end.

Section Poll.

Context {W CreateFunctionRequest UpdateFunction T : Type}.
Local Abbreviation M := (M W CreateFunctionRequest UpdateFunction).

(** The fixed cadence between two attempts. *)
Variable interval : positive.

(** Modelled from the spec: the pause between two attempts of the SDK
    poller, which is not among the sources.  Wait one interval, or until the
    deadline if that comes first; answers whether the deadline was hit. *)
Definition sleep (deadline : Z) : M bool :=
  t <- now ;;
  if deadline <=? t + Z.pos interval
  then _ <- set_clock (Z.max t deadline) ;; ret true
  else _ <- set_clock (t + Z.pos interval) ;; ret false.

(** Modelled from the spec: the loop of the SDK poller, which is not among
    the sources.  A value ends it (Ready), a halting error ends it at once
    (Fatal), any other error is followed by a pause and, unless the deadline
    was reached, by the next attempt (NotYetAvailable). *)
Fixpoint poll_loop (fuel : nat) (deadline : Z) (fn : M (T + Err))
  : M (T + PollError) :=
  match fuel with
  | O => out_of_fuel
  | S fuel' =>
      r <- fn ;;
      match r with
      | inl res => ret (inl res)
      | inr err =>
          if Halt_ err then ret (inr (Halted (Err_ err)))
          else
            expired <- sleep deadline ;;
            if expired then ret (inr (TimedOut (Err_ err)))
            else poll_loop fuel' deadline fn
      end
  end.

(** Attempts are [interval] apart and start before the deadline, so
    this many always suffice. *)
Definition attempts_bound (timeout : time.Duration) : nat :=
  S (Z.to_nat (timeout / Z.pos interval)).

(** Modelled from the spec: [retries.Poll] belongs to the SDK and is not
    among the sources.  It polls at a fixed interval up to a bounded total
    timeout; an attempt that yields a value ends the wait with it, an
    attempt that asks to continue is followed by one interval of sleep,
    an attempt that asks to halt ends the wait at once, and reaching the
    deadline (the timeout or the caller's own cancellation, whichever is
    earlier) ends it with a time-out. *)
Definition Poll (ctx : context.Context) (timeout : time.Duration)
           (fn : M (T + Err)) : M (T + PollError) :=
  t <- now ;;
  poll_loop (attempts_bound timeout) (context.deadline ctx t timeout) fn.

End Poll.

End retries.

(** ** The resource *)

Definition resourceName : string := "function".

Section FunctionResource.

Context {W CreateFunctionRequest UpdateFunction : Type}.
Local Abbreviation M := (M W CreateFunctionRequest UpdateFunction).
Local Abbreviation WorkspaceClient :=
  (databricks.WorkspaceClient W CreateFunctionRequest UpdateFunction).

(** The cadence of the SDK poller. *)
Variable interval : positive.

(** The struct converters of package converters, one per pair of types
    they are used at; each fills a destination and reports diagnostics. *)
Variable TfSdkToGoSdkStruct_create :
  catalog_tf.FunctionInfo -> CreateFunctionRequest
  -> CreateFunctionRequest * diag.Diagnostics.
Variable TfSdkToGoSdkStruct_update :
  catalog_tf.FunctionInfo -> UpdateFunction
  -> UpdateFunction * diag.Diagnostics.
Variable GoSdkToTfSdkStruct :
  catalog.FunctionInfo -> catalog_tf.FunctionInfo
  -> catalog_tf.FunctionInfo * diag.Diagnostics.

(** Zero values of the two request structs. *)
Variable zero_CreateFunctionRequest : CreateFunctionRequest.
Variable zero_UpdateFunction : UpdateFunction.

(** [w.Functions.X(ctx, ...)], recorded. *)
Definition Functions_Create (w : WorkspaceClient) (req : CreateFunctionRequest)
  : M (catalog.FunctionInfo + go_error) :=
  remote (catalog.Create (databricks.Functions w) req) (CallCreate req).

Definition Functions_GetByName (w : WorkspaceClient) (name : string)
  : M (catalog.FunctionInfo + go_error) :=
  remote (catalog.GetByName (databricks.Functions w) name) (CallGetByName name).

Definition Functions_Update (w : WorkspaceClient) (req : UpdateFunction)
  : M (catalog.FunctionInfo + go_error) :=
  remote (catalog.Update (databricks.Functions w) req) (CallUpdate req).

Definition Functions_DeleteByName (w : WorkspaceClient) (name : string)
  : M (option go_error) :=
  remote (catalog.DeleteByName (databricks.Functions w) name) (CallDeleteByName name).

(** The closure handed to the poller: one look-up, classified. *)
Definition waitForFunction_attempt (w : WorkspaceClient)
           (funcInfo : catalog.FunctionInfo)
  : M (catalog.FunctionInfo + retries.Err) :=
  r <- Functions_GetByName w (catalog.FullName funcInfo) ;;
  match r with
  | inr err =>
      if apierr.IsMissing err
      then ret (inr (retries.Continue
             (fmt.Errorf (String.append "function "
                (String.append (catalog.FullName funcInfo)
                               " is not yet available")))))
      else ret (inr (retries.Halt
             (fmt.Errorf (String.append "failed to get function: " (Error err)))))
  | inl attempt => ret (inl attempt)
  end.

Definition waitForFunction_timeout : time.Duration := 5 * time.Minute.

(** [funcInfo] is a pointer in the source; the model returns its final
    content next to the diagnostics. *)
Definition waitForFunction (ctx : context.Context) (w : WorkspaceClient)
           (funcInfo : catalog.FunctionInfo)
  : M (catalog.FunctionInfo * diag.Diagnostics) :=
  r <- retries.Poll interval ctx waitForFunction_timeout
         (waitForFunction_attempt w funcInfo) ;;
  match r with
  | inr err =>
      ret (funcInfo,
           [diag.NewErrorDiagnostic "failed to create function"
                                    (retries.PollError_Error err)])
  | inl result => ret (result, [])
  end.

Record FunctionResource : Type :=
  { Client : common.DatabricksClient W CreateFunctionRequest UpdateFunction }.

Definition ImportState (r : FunctionResource) (ctx : context.Context)
           (req : resource.ImportStateRequest)
           (resp : resource.ImportStateResponse)
  : resource.ImportStateResponse :=
  resource.ImportStatePassthroughID (path.Root "full_name") req resp.

Definition Create (r : FunctionResource) (ctx : context.Context)
           (req : resource.CreateRequest) (resp : resource.CreateResponse)
  : M resource.CreateResponse :=
  let ctx := pluginfwcontext.SetUserAgentInResourceContext ctx resourceName in
  let '(w, diags) := common.GetWorkspaceClient (Client r) in
  let resp := resource.Append resp diags in
  if resource.HasError resp then ret resp else
  let '(planFunc, d) := tfsdk.Get (resource.Plan req) catalog_tf.zero in
  let resp := resource.Append resp d in
  if resource.HasError resp then ret resp else
  let '(createReq, d) :=
    TfSdkToGoSdkStruct_create planFunc zero_CreateFunctionRequest in
  let resp := resource.Append resp d in
  if resource.HasError resp then ret resp else
  created <- Functions_Create w createReq ;;
  match created with
  | inr err =>
      ret (resource.AddError resp "failed to create function" (Error err))
  | inl funcInfo =>
      waited <- waitForFunction ctx w funcInfo ;;
      let '(funcInfo, d) := waited in
      let resp := resource.Append resp d in
      if resource.HasError resp then ret resp else
      let '(planFunc, d) := GoSdkToTfSdkStruct funcInfo planFunc in
      let resp := resource.Append resp d in
      if resource.HasError resp then ret resp else
      let '(s, d) := tfsdk.Set_ (resource.State resp) planFunc in
      ret (resource.Append (resource.with_State resp s) d)
  end.

Definition Update (r : FunctionResource) (ctx : context.Context)
           (req : resource.UpdateRequest) (resp : resource.UpdateResponse)
  : M resource.UpdateResponse :=
  let ctx := pluginfwcontext.SetUserAgentInResourceContext ctx resourceName in
  let '(w, diags) := common.GetWorkspaceClient (Client r) in
  let resp := resource.Append resp diags in
  if resource.HasError resp then ret resp else
  let '(planFunc, d) := tfsdk.Get (resource.Plan_ req) catalog_tf.zero in
  let resp := resource.Append resp d in
  if resource.HasError resp then ret resp else
  let '(updateReq, d) := TfSdkToGoSdkStruct_update planFunc zero_UpdateFunction in
  let resp := resource.Append resp d in
  if resource.HasError resp then ret resp else
  updated <- Functions_Update w updateReq ;;
  match updated with
  | inr err =>
      ret (resource.AddError resp "failed to update function" (Error err))
  | inl funcInfo =>
      let '(planFunc, d) := GoSdkToTfSdkStruct funcInfo planFunc in
      let resp := resource.Append resp d in
      if resource.HasError resp then ret resp else
      let '(s, d) := tfsdk.Set_ (resource.State resp) planFunc in
      ret (resource.Append (resource.with_State resp s) d)
  end.

Definition Read (r : FunctionResource) (ctx : context.Context)
           (req : resource.ReadRequest) (resp : resource.ReadResponse)
  : M resource.ReadResponse :=
  let ctx := pluginfwcontext.SetUserAgentInResourceContext ctx resourceName in
  let '(w, diags) := common.GetWorkspaceClient (Client r) in
  let resp := resource.Append resp diags in
  if resource.HasError resp then ret resp else
  let '(stateFunc, d) := tfsdk.Get (resource.State_ req) catalog_tf.zero in
  let resp := resource.Append resp d in
  if resource.HasError resp then ret resp else
  let funcName := types.ValueString (catalog_tf.Name stateFunc) in
  fetched <- Functions_GetByName w funcName ;;
  match fetched with
  | inr err =>
      if apierr.IsMissing err
      then ret (resource.with_State resp
                  (tfsdk.RemoveResource (resource.State resp)))
      else ret (resource.AddError resp "failed to get function" (Error err))
  | inl funcInfo =>
      let '(stateFunc, d) := GoSdkToTfSdkStruct funcInfo stateFunc in
      let resp := resource.Append resp d in
      if resource.HasError resp then ret resp else
      let '(s, d) := tfsdk.Set_ (resource.State resp) stateFunc in
      ret (resource.Append (resource.with_State resp s) d)
  end.

Definition Delete (r : FunctionResource) (ctx : context.Context)
           (req : resource.DeleteRequest) (resp : resource.DeleteResponse)
  : M resource.DeleteResponse :=
  let ctx := pluginfwcontext.SetUserAgentInResourceContext ctx resourceName in
  let '(w, diags) := common.GetWorkspaceClient (Client r) in
  let resp := resource.Append resp diags in
  if resource.HasError resp then ret resp else
  let deleteReq := catalog_tf.mk_DeleteFunctionRequest types.StringNull in
  let '(name, d) :=
    tfsdk.GetAttribute (resource.State__ req) (path.Root "full_name")
                       (catalog_tf.Name_ deleteReq) in
  let deleteReq := catalog_tf.mk_DeleteFunctionRequest name in
  let resp := resource.Append resp d in
  if resource.HasError resp then ret resp else
  err <- Functions_DeleteByName w (types.ValueString (catalog_tf.Name_ deleteReq)) ;;
  match err with
  | Some e =>
      if negb (apierr.IsMissing e)
      then ret (resource.AddError resp "failed to delete function" (Error e))
      else ret resp
  | None => ret resp
  end.

End FunctionResource.

(** ** A reference remote

    A small in-memory catalog used to run the resource on concrete inputs:
    a created function becomes visible to look-ups only after a number of
    them, and an outage makes every call fail with a transport error. *)

Module Fake.

Record World : Type := mk_World
  { objects : list (catalog.FunctionInfo * nat)
  ; lag : nat
  ; outage : bool }.

Definition not_found : go_error := mk_error "function does not exist" true.
Definition unavailable : go_error := mk_error "503 service unavailable" false.
Definition conflict : go_error := mk_error "function already exists" false.

Definition named (name : string) (o : catalog.FunctionInfo * nat) : bool :=
  String.eqb (catalog.FullName (fst o)) name.

Definition qualify (f : catalog.FunctionInfo) : catalog.FunctionInfo :=
  catalog.mk_FunctionInfo
    (catalog.CatalogName f) (catalog.SchemaName f) (catalog.Name f)
    (String.append (catalog.CatalogName f)
       (String.append "." (String.append (catalog.SchemaName f)
          (String.append "." (catalog.Name f)))))
    (catalog.RoutineDefinition f).

Definition Create (req : catalog.FunctionInfo) (w : World)
  : (catalog.FunctionInfo + go_error) * World :=
  if outage w then (inr unavailable, w)
  else
    let f := qualify req in
    if existsb (named (catalog.FullName f)) (objects w) then (inr conflict, w)
    else (inl f, mk_World ((f, lag w) :: objects w) (lag w) (outage w)).

Fixpoint look_up (name : string) (os : list (catalog.FunctionInfo * nat))
  : (catalog.FunctionInfo + go_error) * list (catalog.FunctionInfo * nat) :=
  match os with
  | [] => (inr not_found, [])
  | (f, n) :: rest =>
      if String.eqb (catalog.FullName f) name
      then match n with
           | O => (inl f, os)
           | S n' => (inr not_found, (f, n') :: rest)
           end
      else let '(r, rest') := look_up name rest in (r, (f, n) :: rest')
  end.

Definition GetByName (name : string) (w : World)
  : (catalog.FunctionInfo + go_error) * World :=
  if outage w then (inr unavailable, w)
  else let '(r, os) := look_up name (objects w) in
       (r, mk_World os (lag w) (outage w)).

(** An update request of the reference remote: a name and a new body. *)
Definition Update (req : string * string) (w : World)
  : (catalog.FunctionInfo + go_error) * World :=
  if outage w then (inr unavailable, w)
  else
    match find (named (fst req)) (objects w) with
    | None => (inr not_found, w)
    | Some (f, n) =>
        let f' := catalog.mk_FunctionInfo
                    (catalog.CatalogName f) (catalog.SchemaName f)
                    (catalog.Name f) (catalog.FullName f) (snd req) in
        (inl f',
         mk_World ((f', n) :: filter (fun o => negb (named (fst req) o)) (objects w))
                  (lag w) (outage w))
    end.

Definition DeleteByName (name : string) (w : World) : option go_error * World :=
  if outage w then (Some unavailable, w)
  else if existsb (named name) (objects w)
  then (None, mk_World (filter (fun o => negb (named name o)) (objects w))
                       (lag w) (outage w))
  else (Some not_found, w).

Definition functions
  : catalog.FunctionsInterface World catalog.FunctionInfo (string * string) :=
  {| catalog.Create := Create
   ; catalog.GetByName := GetByName
   ; catalog.Update := Update
   ; catalog.DeleteByName := DeleteByName |}.

Definition workspace
  : databricks.WorkspaceClient World catalog.FunctionInfo (string * string) :=
  {| databricks.Functions := functions |}.

Definition client
  : FunctionResource (W := World) :=
  {| Client := {| common.GetWorkspaceClient := (workspace, []) |} |}.

(** Converters of the reference setting: attribute by attribute. *)
Definition to_create (src : catalog_tf.FunctionInfo) (dst : catalog.FunctionInfo)
  : catalog.FunctionInfo * diag.Diagnostics :=
  (catalog.mk_FunctionInfo
     (types.ValueString (catalog_tf.CatalogName src))
     (types.ValueString (catalog_tf.SchemaName src))
     (types.ValueString (catalog_tf.Name src))
     (catalog.FullName dst)
     (types.ValueString (catalog_tf.RoutineDefinition src)), []).

Definition to_update (src : catalog_tf.FunctionInfo) (dst : string * string)
  : (string * string) * diag.Diagnostics :=
  ((types.ValueString (catalog_tf.FullName src),
    types.ValueString (catalog_tf.RoutineDefinition src)), []).

Definition to_tf (src : catalog.FunctionInfo) (dst : catalog_tf.FunctionInfo)
  : catalog_tf.FunctionInfo * diag.Diagnostics :=
  (catalog_tf.mk_FunctionInfo
     (types.StringValue (catalog.CatalogName src))
     (types.StringValue (catalog.SchemaName src))
     (types.StringValue (catalog.Name src))
     (types.StringValue (catalog.FullName src))
     (types.StringValue (catalog.RoutineDefinition src)), []).

Definition zero_create : catalog.FunctionInfo :=
  catalog.mk_FunctionInfo "" "" "" "" "".

Definition start (w : World) : St World catalog.FunctionInfo (string * string) :=
  mk_St w 0 [].

Definition empty_response : resource.Response :=
  resource.mk_Response (tfsdk.mk_State None) [].

(** [main.default.f], as planned, as created and as stored. *)
Definition planned : catalog_tf.FunctionInfo :=
  catalog_tf.mk_FunctionInfo
    (types.StringValue "main") (types.StringValue "default")
    (types.StringValue "f") types.StringUnknown (types.StringValue "RETURN 1").

Definition remote_f : catalog.FunctionInfo :=
  catalog.mk_FunctionInfo "main" "default" "f" "main.default.f" "RETURN 1".

Definition stored : catalog_tf.FunctionInfo := fst (to_tf remote_f planned).

Definition one_second : positive := 1000000000.

End Fake.

(** ** Vocabulary for the statements *)

Section Shape.

Context {W CreateFunctionRequest UpdateFunction : Type}.
Local Abbreviation St := (St W CreateFunctionRequest UpdateFunction).
Local Abbreviation Call := (Call CreateFunctionRequest UpdateFunction).
Local Abbreviation WorkspaceClient :=
  (databricks.WorkspaceClient W CreateFunctionRequest UpdateFunction).

Variable interval : positive.
Variable funcInfo : catalog.FunctionInfo.

(** The two errors the closure of the wait can hand to the poller. *)
Definition not_yet_available : go_error :=
  fmt.Errorf (String.append "function "
                (String.append (catalog.FullName funcInfo) " is not yet available")).

Definition failed_to_get (err : go_error) : go_error :=
  fmt.Errorf (String.append "failed to get function: " (Error err)).

(** The state right after one look-up of the function answered [r] and left
    the remote world at [wd]. *)
Definition polled (st : St) (r : catalog.FunctionInfo + go_error) (wd : W) : St :=
  mk_St wd (clock st)
        (calls st ++ [(clock st, CallGetByName (catalog.FullName funcInfo) r)]).

Definition at_clock (st : St) (t : Z) : St := mk_St (world st) t (calls st).

(** Look-ups of the function stamped one interval apart, starting at [t]. *)
Fixpoint poll_calls (t : Z) (rs : list (catalog.FunctionInfo + go_error))
  : list (Z * Call) :=
  match rs with
  | [] => []
  | r :: rs' =>
      (t, CallGetByName (catalog.FullName funcInfo) r)
        :: poll_calls (t + Z.pos interval) rs'
  end.

Definition missing_answer (r : catalog.FunctionInfo + go_error) : Prop :=
  exists e, r = inr e /\ apierr.IsMissing e = true.

(** How a wait ends, given the answer [r] of its last look-up made at
    instant [tl]: with the object, with a fatal error, or timed out. *)
Inductive poll_end (deadline tl : Z)
  : catalog.FunctionInfo + go_error
    -> catalog.FunctionInfo + retries.PollError -> Z -> Prop :=
| end_ready obj :
    poll_end deadline tl (inl obj) (inl obj) tl
| end_fatal e :
    apierr.IsMissing e = false ->
    poll_end deadline tl (inr e) (inr (retries.Halted (failed_to_get e))) tl
| end_timeout e :
    apierr.IsMissing e = true ->
    deadline <= tl + Z.pos interval ->
    poll_end deadline tl (inr e)
             (inr (retries.TimedOut not_yet_available)) (Z.max tl deadline).

(** What the caller of the wait gets for each end of the poll. *)
Definition wait_result (out : catalog.FunctionInfo + retries.PollError)
  : catalog.FunctionInfo * diag.Diagnostics :=
  match out with
  | inl result => (result, [])
  | inr err =>
      (funcInfo,
       [diag.NewErrorDiagnostic "failed to create function"
                                (retries.PollError_Error err)])
  end.

(** The two failure diagnostics of the wait. *)
Definition stabilization_timeout : diag.Diagnostic :=
  diag.NewErrorDiagnostic "failed to create function"
    (retries.PollError_Error (retries.TimedOut not_yet_available)).

Definition poll_fatal (err : go_error) : diag.Diagnostic :=
  diag.NewErrorDiagnostic "failed to create function"
    (retries.PollError_Error (retries.Halted (failed_to_get err))).

Definition wait_deadline (ctx : context.Context) (st : St) : Z :=
  context.deadline ctx (clock st) waitForFunction_timeout.

(** The calls a run added to the record. *)
Definition new_calls (st st' : St) : list (Z * Call) :=
  skipn (length (calls st)) (calls st').

End Shape.

(** The part of each life-cycle method that precedes its remote call: either
    an early return with the response so far, or what the call is made with. *)

Section Prepare.

Context {W CreateFunctionRequest UpdateFunction : Type}.
Local Abbreviation WorkspaceClient :=
  (databricks.WorkspaceClient W CreateFunctionRequest UpdateFunction).
Local Abbreviation FunctionResource :=
  (@FunctionResource W CreateFunctionRequest UpdateFunction).

Variable TfSdkToGoSdkStruct_create :
  catalog_tf.FunctionInfo -> CreateFunctionRequest
  -> CreateFunctionRequest * diag.Diagnostics.
Variable zero_CreateFunctionRequest : CreateFunctionRequest.

Definition Create_prepare (r : FunctionResource) (req : resource.CreateRequest)
           (resp : resource.CreateResponse)
  : resource.CreateResponse
    + (WorkspaceClient * catalog_tf.FunctionInfo * CreateFunctionRequest
       * resource.CreateResponse) :=
  let '(w, diags) := common.GetWorkspaceClient (Client r) in
  let resp := resource.Append resp diags in
  if resource.HasError resp then inl resp else
  let '(planFunc, d) := tfsdk.Get (resource.Plan req) catalog_tf.zero in
  let resp := resource.Append resp d in
  if resource.HasError resp then inl resp else
  let '(createReq, d) :=
    TfSdkToGoSdkStruct_create planFunc zero_CreateFunctionRequest in
  let resp := resource.Append resp d in
  if resource.HasError resp then inl resp else
  inr (w, planFunc, createReq, resp).

Definition Read_prepare (r : FunctionResource) (req : resource.ReadRequest)
           (resp : resource.ReadResponse)
  : resource.ReadResponse
    + (WorkspaceClient * catalog_tf.FunctionInfo * resource.ReadResponse) :=
  let '(w, diags) := common.GetWorkspaceClient (Client r) in
  let resp := resource.Append resp diags in
  if resource.HasError resp then inl resp else
  let '(stateFunc, d) := tfsdk.Get (resource.State_ req) catalog_tf.zero in
  let resp := resource.Append resp d in
  if resource.HasError resp then inl resp else
  inr (w, stateFunc, resp).

Definition Delete_prepare (r : FunctionResource) (req : resource.DeleteRequest)
           (resp : resource.DeleteResponse)
  : resource.DeleteResponse
    + (WorkspaceClient * catalog_tf.DeleteFunctionRequest * resource.DeleteResponse) :=
  let '(w, diags) := common.GetWorkspaceClient (Client r) in
  let resp := resource.Append resp diags in
  if resource.HasError resp then inl resp else
  let '(name, d) :=
    tfsdk.GetAttribute (resource.State__ req) (path.Root "full_name")
                       types.StringNull in
  let resp := resource.Append resp d in
  if resource.HasError resp then inl resp else
  inr (w, catalog_tf.mk_DeleteFunctionRequest name, resp).

Variable interval : positive.
Variable GoSdkToTfSdkStruct :
  catalog.FunctionInfo -> catalog_tf.FunctionInfo
  -> catalog_tf.FunctionInfo * diag.Diagnostics.

(** What [Create] does with the answer of the creation call. *)
Definition Create_finish (ctx : context.Context) (w : WorkspaceClient)
           (planFunc : catalog_tf.FunctionInfo) (resp : resource.CreateResponse)
           (created : catalog.FunctionInfo + go_error)
  : M W CreateFunctionRequest UpdateFunction resource.CreateResponse :=
  match created with
  | inr err =>
      ret (resource.AddError resp "failed to create function" (Error err))
  | inl funcInfo =>
      waited <- waitForFunction interval ctx w funcInfo ;;
      let '(funcInfo, d) := waited in
      let resp := resource.Append resp d in
      if resource.HasError resp then ret resp else
      let '(planFunc, d) := GoSdkToTfSdkStruct funcInfo planFunc in
      let resp := resource.Append resp d in
      if resource.HasError resp then ret resp else
      let '(s, d) := tfsdk.Set_ (resource.State resp) planFunc in
      ret (resource.Append (resource.with_State resp s) d)
  end.

End Prepare.

(** ** Concrete runs against the reference remote *)

Module Scenario.

(** The function is there and visible. *)
Definition present : Fake.World := Fake.mk_World [(Fake.remote_f, 0%nat)] 0 false.

(** The function is there but the next two look-ups will not see it. *)
Definition lagging : Fake.World := Fake.mk_World [(Fake.remote_f, 2%nat)] 2 false.

(** Nothing is there; what gets created shows up at the third look-up. *)
Definition absent : Fake.World := Fake.mk_World [] 2 false.

(** Every call fails with a transport error. *)
Definition down : Fake.World := Fake.mk_World [] 0 true.

Definition stored_state : tfsdk.State := tfsdk.mk_State (Some Fake.stored).

Definition stored_response : resource.Response :=
  resource.mk_Response stored_state [].

Definition create_request : resource.CreateRequest :=
  {| resource.Plan := tfsdk.mk_State (Some Fake.planned) |}.

Definition read_request : resource.ReadRequest :=
  {| resource.State_ := stored_state |}.

Definition delete_request : resource.DeleteRequest :=
  {| resource.State__ := stored_state |}.

(** The state seeded by importing [main.default.f]. *)
Definition imported : tfsdk.State :=
  resource.State
    (ImportState Fake.client context.Background
                 {| resource.ID := "main.default.f" |} Fake.empty_response).

Definition wait :=
  waitForFunction Fake.one_second context.Background Fake.workspace Fake.remote_f.

Definition create :=
  Create Fake.one_second Fake.to_create Fake.to_tf Fake.zero_create
         Fake.client context.Background.

Definition read := Read Fake.to_tf Fake.client context.Background.

Definition delete := Delete Fake.client context.Background.

Definition final_state {A : Type} (w : Fake.World)
           (run : option (A * St Fake.World catalog.FunctionInfo (string * string)))
  : St Fake.World catalog.FunctionInfo (string * string) :=
  match run with
  | Some (_, st') => st'
  | None => Fake.start w
  end.

Definition lagging_end := Eval vm_compute in
  final_state lagging (wait (Fake.start lagging)).

Definition down_end := Eval vm_compute in
  final_state down (wait (Fake.start down)).

Definition after_create := Eval vm_compute in
  final_state absent (create create_request Fake.empty_response (Fake.start absent)).

Definition after_first_delete := Eval vm_compute in
  final_state present (delete delete_request stored_response (Fake.start present)).

End Scenario.

(** ** More vocabulary: Update, the shared tail, configuration *)

Section PrepareMore.

Context {W CreateFunctionRequest UpdateFunction : Type}.
Local Abbreviation WorkspaceClient :=
  (databricks.WorkspaceClient W CreateFunctionRequest UpdateFunction).
Local Abbreviation FunctionResource :=
  (@FunctionResource W CreateFunctionRequest UpdateFunction).

Variable TfSdkToGoSdkStruct_update :
  catalog_tf.FunctionInfo -> UpdateFunction
  -> UpdateFunction * diag.Diagnostics.
Variable GoSdkToTfSdkStruct :
  catalog.FunctionInfo -> catalog_tf.FunctionInfo
  -> catalog_tf.FunctionInfo * diag.Diagnostics.
Variable zero_UpdateFunction : UpdateFunction.

(** The part of [Update] that precedes its remote call. *)
Definition Update_prepare (r : FunctionResource) (req : resource.UpdateRequest)
           (resp : resource.UpdateResponse)
  : resource.UpdateResponse
    + (WorkspaceClient * catalog_tf.FunctionInfo * UpdateFunction
       * resource.UpdateResponse) :=
  let '(w, diags) := common.GetWorkspaceClient (Client r) in
  let resp := resource.Append resp diags in
  if resource.HasError resp then inl resp else
  let '(planFunc, d) := tfsdk.Get (resource.Plan_ req) catalog_tf.zero in
  let resp := resource.Append resp d in
  if resource.HasError resp then inl resp else
  let '(updateReq, d) := TfSdkToGoSdkStruct_update planFunc zero_UpdateFunction in
  let resp := resource.Append resp d in
  if resource.HasError resp then inl resp else
  inr (w, planFunc, updateReq, resp).

(** The tail [Create], [Update] and [Read] share: convert the remote object
    into the Terraform struct and, unless that reported an error, store it. *)
Definition store_converted (funcInfo : catalog.FunctionInfo)
           (target : catalog_tf.FunctionInfo) (resp : resource.Response)
  : resource.Response :=
  let '(converted, d) := GoSdkToTfSdkStruct funcInfo target in
  let resp := resource.Append resp d in
  if resource.HasError resp then resp else
  let '(s, d) := tfsdk.Set_ (resource.State resp) converted in
  resource.Append (resource.with_State resp s) d.

End PrepareMore.


(** The key [Delete] sends: the [full_name] attribute of the stored state,
    empty when the state is null or the attribute has no known value. *)
Definition Delete_key (req : resource.DeleteRequest) : string :=
  match tfsdk.Raw (resource.State__ req) with
  | Some v => types.ValueString (catalog_tf.FullName v)
  | None => EmptyString
  end.

(** [resp'] carries the state of [resp] and its diagnostics, possibly with
    more at the end. *)
Definition grown (resp resp' : resource.Response) : Prop :=
  resource.State resp' = resource.State resp
  /\ exists extra,
      resource.Diagnostics resp' = resource.Diagnostics resp ++ extra.

(** [resp'] keeps the diagnostics of [resp] in front, and differs in state
    only if it carries no error. *)
Definition settled (resp resp' : resource.Response) : Prop :=
  (exists extra,
      resource.Diagnostics resp' = resource.Diagnostics resp ++ extra)
  /\ (resource.HasError resp' = true ->
      resource.State resp' = resource.State resp).

(** *** Configure

    [Configure] works on the resource while its client pointer may still be
    nil, so the receiver is modelled by that pointer. *)

Module configure.

Record Request (ProviderData : Type) : Type :=
  { ProviderData_ : option ProviderData }.

Record Response : Type := mk_Response
  { Diagnostics : diag.Diagnostics }.

Arguments ProviderData_ {ProviderData}.

End configure.

Section Configure.

Context {W CreateFunctionRequest UpdateFunction ProviderData : Type}.
Local Abbreviation DatabricksClient :=
  (common.DatabricksClient W CreateFunctionRequest UpdateFunction).

(** A pointer to the resource struct: its one field, possibly nil. *)
Record FunctionResourcePtr : Type :=
  { ClientPtr : option DatabricksClient }.

(** [ResourceFunction()] returns [&FunctionResource{}]: no client yet. *)
Definition ResourceFunction : FunctionResourcePtr := {| ClientPtr := None |}.

(** [pluginfwcommon.ConfigureResource(req, resp)]: a client or nil, and the
    response it may have added diagnostics to. *)
Variable ConfigureResource :
  configure.Request ProviderData -> configure.Response
  -> option DatabricksClient * configure.Response.

Definition Configure (r : FunctionResourcePtr) (ctx : context.Context)
           (req : configure.Request ProviderData) (resp : configure.Response)
  : FunctionResourcePtr * configure.Response :=
  match ClientPtr r, configure.ProviderData_ req with
  | None, Some _ =>
      let '(c, resp') := ConfigureResource req resp in
      ({| ClientPtr := c |}, resp')
  | _, _ => (r, resp)
  end.

(** The framework configuring the resource several times in a row; answers
    the resource and the response of every call. *)
Fixpoint Configure_each (r : FunctionResourcePtr) (ctx : context.Context)
         (calls : list (configure.Request ProviderData * configure.Response))
  : FunctionResourcePtr * list configure.Response :=
  match calls with
  | [] => (r, [])
  | (req, resp) :: rest =>
      let '(r', resp') := Configure r ctx req resp in
      let '(r'', resps) := Configure_each r' ctx rest in
      (r'', resp' :: resps)
  end.

(** The client that [ConfigureResource] first yields on a run of calls, and
    the responses of that run: calls without provider data are skipped, and
    so is every call after a client was obtained. *)
Fixpoint first_client
         (calls : list (configure.Request ProviderData * configure.Response))
  : option DatabricksClient * list configure.Response :=
  match calls with
  | [] => (None, [])
  | (req, resp) :: rest =>
      match configure.ProviderData_ req with
      | None => let '(c, resps) := first_client rest in (c, resp :: resps)
      | Some _ =>
          match ConfigureResource req resp with
          | (Some c, resp') => (Some c, resp' :: map snd rest)
          | (None, resp') =>
              let '(c, resps) := first_client rest in (c, resp' :: resps)
          end
      end
  end.

End Configure.

(** ** The acceptance check of the users data source

    [data_users_test.go]: the [Check] closure of the test step, run on the
    Terraform state the test harness hands it. *)

Module terraform.

Record InstanceState : Type := { Attributes : list (string * string) }.

Record ResourceState : Type := { Primary : option InstanceState }.

Record ModuleState : Type :=
  { Resources : list (string * option ResourceState) }.

(** [s.RootModule()] may be nil. *)
Record State : Type := { RootModule : option ModuleState }.

(** Indexing a Go map kept as an association list. *)
Fixpoint lookup {V : Type} (key : string) (m : list (string * V)) : option V :=
  match m with
  | [] => None
  | (k, v) :: rest => if String.eqb k key then Some v else lookup key rest
  end.

(** [m[key]] on a [map[string]string]: the zero value when absent. *)
Definition index (m : list (string * string)) (key : string) : string :=
  match lookup key m with Some v => v | None => EmptyString end.

End terraform.

Module acceptance.

(** What running a check function can come to. *)
Inductive Outcome : Type :=
| Passed
| Failed (err : go_error)
| Panicked.

Section Check.

(** [fmt]'s [%v] rendering of a map. *)
Variable format_map : list (string * string) -> string.

(** The [Check] function of [TestAccDataSourceDataUsers]. *)
Definition TestAccDataSourceDataUsers_Check (s : terraform.State) : Outcome :=
  match terraform.RootModule s with
  | None => Panicked
  | Some root =>
      match terraform.lookup "data.databricks_data_users.this"
                             (terraform.Resources root) with
      | None => Failed (fmt.Errorf "data not found in state")
      | Some None => Panicked
      | Some (Some r) =>
          match terraform.Primary r with
          | None => Panicked
          | Some primary =>
              let ids := terraform.index (terraform.Attributes primary) "users.#" in
              if String.eqb ids ""
              then Failed (fmt.Errorf
                             (String.append "users is empty: "
                                (format_map (terraform.Attributes primary))))
              else Passed
          end
      end
  end.

End Check.

End acceptance.

(** ** More concrete inputs *)

Module Scenario2.

(** A provider whose client cannot be built. *)
Definition no_client_error : diag.Diagnostic :=
  diag.NewErrorDiagnostic "failed to get workspace client" "no credentials".

Definition broken
  : @FunctionResource Fake.World catalog.FunctionInfo (string * string) :=
  {| Client := {| common.GetWorkspaceClient := (Fake.workspace, [no_client_error]) |} |}.

Definition update_request : resource.UpdateRequest :=
  {| resource.Plan_ := tfsdk.mk_State (Some Fake.stored)
   ; resource.PriorState := Scenario.stored_state |}.

Definition update := Update Fake.to_update Fake.to_tf ("", "")
                            Fake.client context.Background.

(** A state of the users data source that lists no user. *)
Definition no_users : terraform.State :=
  {| terraform.RootModule :=
       Some {| terraform.Resources :=
                 [("data.databricks_data_users.this",
                   Some {| terraform.Primary :=
                             Some {| terraform.Attributes :=
                                       [("id", "x"); ("users.#", "0")] |} |})] |} |}.

(** A remote on which a function answers to its bare name. *)
Definition bare_f : catalog.FunctionInfo :=
  catalog.mk_FunctionInfo "main" "default" "f" "f" "RETURN 2".

Definition bare : Fake.World := Fake.mk_World [(bare_f, 0%nat)] 0 false.

End Scenario2.

(** * Properties *)

(** ** Diagnostics *)

Lemma Contains_error_false (diags : diag.Diagnostics) (summary detail : string) :
  diag.HasError diags = false ->
  diag.Contains diags (diag.NewErrorDiagnostic summary detail) = false.
Proof.
  unfold diag.Contains, diag.HasError.
  induction diags as [|d rest IH]; cbn [existsb]; [reflexivity|].
  intros H. apply orb_false_iff in H as [Hd Hrest].
  rewrite (IH Hrest), orb_false_r.
  unfold diag.Equal, diag.is_error in *. cbn.
  destruct (diag.severity d); [discriminate | reflexivity].
Qed.

Lemma AddError_fresh (diags : diag.Diagnostics) (summary detail : string) :
  diag.HasError diags = false ->
  diag.AddError diags summary detail
  = diags ++ [diag.NewErrorDiagnostic summary detail].
Proof.
  intros H. unfold diag.AddError. cbn.
  now rewrite (Contains_error_false _ summary detail H).
Qed.

Lemma Append_nil_r (resp : resource.Response) : resource.Append resp [] = resp.
Proof. now destruct resp. Qed.

Lemma last_position {A : Type} (pre post front : list A) (x y : A) :
  pre ++ x :: post = front ++ [y] ->
  ~ In x front ->
  pre = front /\ x = y /\ post = [].
Proof.
  revert front. induction pre as [|p pre IH]; intros [|a front] Heq Hnot;
    cbn in Heq; inversion Heq; subst.
  - auto.
  - exfalso. apply Hnot. now left.
  - destruct pre; discriminate.
  - destruct (IH front H1) as (-> & -> & ->); auto.
    intros Hin. apply Hnot. now right.
Qed.

(** ** The stabilization wait *)

Section Wait.

Context {W CreateFunctionRequest UpdateFunction : Type}.
Local Abbreviation St := (St W CreateFunctionRequest UpdateFunction).
Local Abbreviation Call := (Call CreateFunctionRequest UpdateFunction).

Variable interval : positive.
Variable w : databricks.WorkspaceClient W CreateFunctionRequest UpdateFunction.
Variable funcInfo : catalog.FunctionInfo.

Local Abbreviation name := (catalog.FullName funcInfo).
Local Abbreviation attempt := (waitForFunction_attempt w funcInfo).
Local Abbreviation GetByName := (catalog.GetByName (databricks.Functions w)).

Lemma attempt_run (st : St) :
  attempt st =
  let '(r, wd) := GetByName name (world st) in
  Some (match r with
        | inl obj => inl obj
        | inr e => if apierr.IsMissing e
                   then inr (retries.Continue (not_yet_available funcInfo))
                   else inr (retries.Halt (failed_to_get e))
        end, polled funcInfo st r wd).
Proof.
  unfold waitForFunction_attempt, Functions_GetByName, bind, remote, polled.
  destruct (catalog.GetByName _ _ _) as [[obj|e] wd]; cbn; [reflexivity|].
  now destruct (apierr.IsMissing e).
Qed.

Lemma poll_loop_step (fuel : nat) (deadline : Z) (st : St) :
  retries.poll_loop interval (S fuel) deadline attempt st =
  let '(r, wd) := GetByName name (world st) in
  match r with
  | inl obj => Some (inl obj, polled funcInfo st r wd)
  | inr e =>
      if apierr.IsMissing e
      then if deadline <=? clock st + Z.pos interval
           then Some (inr (retries.TimedOut (not_yet_available funcInfo)),
                      at_clock (polled funcInfo st r wd) (Z.max (clock st) deadline))
           else retries.poll_loop interval fuel deadline attempt
                  (at_clock (polled funcInfo st r wd) (clock st + Z.pos interval))
      else Some (inr (retries.Halted (failed_to_get e)), polled funcInfo st r wd)
  end.
Proof.
  cbn [retries.poll_loop]. unfold bind at 1. rewrite attempt_run.
  destruct (catalog.GetByName _ _ _) as [[obj|e] wd]; [reflexivity|].
  destruct (apierr.IsMissing e); [|reflexivity].
  cbn. unfold retries.sleep, bind, now, set_clock, ret. cbn.
  now destruct (deadline <=? clock st + Z.pos interval).
Qed.

Lemma poll_calls_app (t : Z) (rs rs' : list (catalog.FunctionInfo + go_error)) :
  poll_calls interval funcInfo t (rs ++ rs')
  = poll_calls interval funcInfo t rs
    ++ poll_calls interval funcInfo
         (t + Z.of_nat (length rs) * Z.pos interval) rs' :> list (Z * Call).
Proof.
  revert t. induction rs as [|r rs IH]; intros t.
  - cbn. now rewrite Z.add_0_r.
  - cbn [app poll_calls length]. rewrite IH. cbn [app]. do 3 f_equal. lia.
Qed.

Lemma poll_calls_length (t : Z) (rs : list (catalog.FunctionInfo + go_error)) :
  length (poll_calls interval funcInfo t rs : list (Z * Call)) = length rs.
Proof. revert t. induction rs; intros; cbn; auto. Qed.

Lemma In_poll_calls (t0 t : Z) (c : Call)
      (rs : list (catalog.FunctionInfo + go_error)) :
  In (t, c) (poll_calls interval funcInfo t0 rs) ->
  exists r, In r rs /\ c = CallGetByName name r.
Proof.
  revert t0. induction rs as [|r rs IH]; intros t0; cbn; [tauto|].
  intros [Heq | Hin].
  - exists r. inversion Heq. auto.
  - destruct (IH _ Hin) as (r' & Hr' & ->). eauto.
Qed.

(** Every run of the loop with enough fuel: some look-ups answered
    "missing", then one last look-up that decides the end. *)
Lemma poll_loop_run (fuel : nat) :
  forall (deadline : Z) (st : St),
    deadline - clock st < Z.of_nat fuel * Z.pos interval ->
    (0 < fuel)%nat ->
    exists rs r out st',
      retries.poll_loop interval fuel deadline attempt st = Some (out, st')
      /\ calls st' = calls st ++ poll_calls interval funcInfo (clock st) (rs ++ [r])
      /\ Forall missing_answer rs
      /\ (rs = [] \/ clock st + Z.of_nat (length rs) * Z.pos interval < deadline)
      /\ poll_end interval funcInfo deadline
                  (clock st + Z.of_nat (length rs) * Z.pos interval)
                  r out (clock st').
Proof.
  induction fuel as [|fuel IH]; intros deadline st Hfuel Hpos; [lia|].
  rewrite poll_loop_step.
  destruct (catalog.GetByName _ _ _) as [[obj|e] wd] eqn:Hget.
  - exists [], (inl obj), (inl obj), (polled funcInfo st (inl obj) wd).
    cbn. rewrite Z.add_0_r. repeat split; auto. constructor.
  - destruct (apierr.IsMissing e) eqn:Hmiss.
    + destruct (deadline <=? clock st + Z.pos interval) eqn:Hdl.
      * apply Z.leb_le in Hdl.
        exists [], (inr e), (inr (retries.TimedOut (not_yet_available funcInfo))),
          (at_clock (polled funcInfo st (inr e) wd) (Z.max (clock st) deadline)).
        cbn. rewrite Z.add_0_r. repeat split; auto. now constructor.
      * apply Z.leb_gt in Hdl.
        destruct (IH deadline
                    (at_clock (polled funcInfo st (inr e) wd)
                              (clock st + Z.pos interval)))
          as (rs & r & out & st' & Hrun & Hcalls & Hrs & Hlate & Hend);
          [cbn; lia | cbn in Hfuel |- *; lia |].
        cbn [clock calls at_clock polled] in *.
        exists (inr e :: rs), r, out, st'.
        replace (clock st + Z.of_nat (length (inr e :: rs)) * Z.pos interval)
          with (clock st + Z.pos interval + Z.of_nat (length rs) * Z.pos interval)
          by (cbn [length]; lia).
        repeat split; auto.
        -- rewrite Hcalls, <- app_assoc. reflexivity.
        -- constructor; [now exists e | assumption].
        -- right. destruct Hlate as [-> | Hlate]; [cbn; lia | assumption].
    + exists [], (inr e), (inr (retries.Halted (failed_to_get e))),
        (polled funcInfo st (inr e) wd).
      cbn. rewrite Z.add_0_r. repeat split; auto. now constructor.
Qed.

Lemma deadline_within (ctx : context.Context) (t : Z) (timeout : time.Duration) :
  context.deadline ctx t timeout <= t + timeout.
Proof.
  unfold context.deadline, context.WithTimeout. cbn.
  destruct (context.done_at ctx); lia.
Qed.

Lemma attempts_bound_enough (ctx : context.Context) (t : Z)
      (timeout : time.Duration) :
  context.deadline ctx t timeout - t
  < Z.of_nat (retries.attempts_bound interval timeout) * Z.pos interval.
Proof.
  pose proof (deadline_within ctx t timeout) as Hd.
  unfold retries.attempts_bound. rewrite Nat2Z.inj_succ.
  destruct (Z.neg_nonneg_cases timeout) as [Hneg | Hnn].
  - assert (0 <= Z.of_nat (Z.to_nat (timeout / Z.pos interval))) by lia. nia.
  - pose proof (Z.div_pos timeout (Z.pos interval) Hnn ltac:(lia)) as Hq.
    rewrite Z2Nat.id by assumption.
    pose proof (Z.mul_succ_div_gt timeout (Z.pos interval) ltac:(lia)). lia.
Qed.

(** Every wait returns, and its run has the shape of [poll_loop_run]. *)
Lemma waitForFunction_run (ctx : context.Context) (st : St) :
  exists rs r out st',
    waitForFunction interval ctx w funcInfo st
    = Some (wait_result funcInfo out, st')
    /\ calls st' = calls st ++ poll_calls interval funcInfo (clock st) (rs ++ [r])
    /\ Forall missing_answer rs
    /\ (rs = [] \/ clock st + Z.of_nat (length rs) * Z.pos interval
                   < wait_deadline ctx st)
    /\ poll_end interval funcInfo (wait_deadline ctx st)
                (clock st + Z.of_nat (length rs) * Z.pos interval)
                r out (clock st').
Proof.
  destruct (poll_loop_run
              (retries.attempts_bound interval waitForFunction_timeout)
              (wait_deadline ctx st) st)
    as (rs & r & out & st' & Hrun & Hrest).
  - apply attempts_bound_enough.
  - unfold retries.attempts_bound. lia.
  - exists rs, r, out, st'. split; [|exact Hrest].
    unfold waitForFunction, retries.Poll, bind, now.
    unfold wait_deadline in Hrun. rewrite Hrun.
    now destruct out.
Qed.

(** A fatal answer in the record of a wait can only be its last entry. *)
Lemma fatal_answer_is_last (t0 t : Z) (rs : list (catalog.FunctionInfo + go_error))
      (r : catalog.FunctionInfo + go_error) (n : string) (e : go_error)
      (pre post : list (Z * Call)) :
  Forall missing_answer rs ->
  apierr.IsMissing e = false ->
  pre ++ (t, CallGetByName n (inr e)) :: post
  = poll_calls interval funcInfo t0 (rs ++ [r]) ->
  post = [] /\ r = inr e
  /\ t = t0 + Z.of_nat (length rs) * Z.pos interval.
Proof.
  intros Hrs Hfatal Heq. rewrite poll_calls_app in Heq. cbn in Heq.
  apply last_position in Heq.
  - destruct Heq as (_ & Hx & ->). inversion Hx. auto.
  - intros Hin. apply In_poll_calls in Hin as (r' & Hr' & Hc).
    rewrite Forall_forall in Hrs. destruct (Hrs _ Hr') as (e' & -> & Hmiss).
    inversion Hc. congruence.
Qed.

(** An object in the record of a wait can only be its last entry. *)
Lemma found_answer_is_last (t0 t : Z) (rs : list (catalog.FunctionInfo + go_error))
      (r : catalog.FunctionInfo + go_error) (n : string)
      (obj : catalog.FunctionInfo) (pre post : list (Z * Call)) :
  Forall missing_answer rs ->
  pre ++ (t, CallGetByName n (inl obj)) :: post
  = poll_calls interval funcInfo t0 (rs ++ [r]) ->
  post = [] /\ r = inl obj
  /\ pre = poll_calls interval funcInfo t0 rs.
Proof.
  intros Hrs Heq. rewrite poll_calls_app in Heq. cbn in Heq.
  apply last_position in Heq.
  - destruct Heq as (-> & Hx & ->). inversion Hx. auto.
  - intros Hin. apply In_poll_calls in Hin as (r' & Hr' & Hc).
    rewrite Forall_forall in Hrs. destruct (Hrs _ Hr') as (e' & -> & Hmiss).
    inversion Hc.
Qed.

Lemma new_calls_app (st st' : St) (added : list (Z * Call)) :
  calls st' = calls st ++ added -> new_calls st st' = added.
Proof.
  intros H. unfold new_calls. rewrite H, skipn_app, skipn_all, Nat.sub_diag.
  reflexivity.
Qed.


(** The wait hands back either the object of its last look-up and no
    diagnostic, or the untouched [funcInfo] and one error diagnostic. *)
Lemma wait_frame (ctx : context.Context) (st st' : St)
      (funcInfo' : catalog.FunctionInfo) (diags : diag.Diagnostics) :
  waitForFunction interval ctx w funcInfo st = Some ((funcInfo', diags), st') ->
  (diags = []
   /\ exists pre t,
       calls st' = calls st ++ pre ++ [(t, CallGetByName name (inl funcInfo'))])
  \/ (funcInfo' = funcInfo
      /\ exists detail,
          diags = [diag.NewErrorDiagnostic "failed to create function" detail]).
Proof.
  intros Hrun.
  destruct (waitForFunction_run ctx st)
    as (rs & r & out & st'' & Hrun' & Hcalls & _ & _ & Hend).
  rewrite Hrun in Hrun'. inversion Hrun' as [[Hout Hst]]. subst st''.
  rewrite poll_calls_app in Hcalls. cbn in Hcalls.
  destruct Hend; cbn in Hout; inversion Hout; subst.
  - left. split; [reflexivity|]. eauto.
  - right. split; [reflexivity|]. eauto.
  - right. split; [reflexivity|]. eauto.
Qed.







(** C7: a poll attempt classified Fatal is the last one.  Whenever the
    record of a wait shows a look-up answered by an error that is not
    "missing", nothing was called after it, the wait returned at that very
    instant (no pause), and it returned the fatal diagnostic of that error. *)
Theorem no_poll_after_fatal (ctx : context.Context) (st st' : St)
        (out : catalog.FunctionInfo * diag.Diagnostics)
        (pre post : list (Z * Call)) (t : Z) (n : string) (e : go_error) :
  waitForFunction interval ctx w funcInfo st = Some (out, st') ->
  calls st' = calls st ++ pre ++ (t, CallGetByName n (inr e)) :: post ->
  apierr.IsMissing e = false ->
  post = [] /\ clock st' = t /\ out = (funcInfo, [poll_fatal e]).
Proof.
  intros Hrun Hrec Hfatal.
  destruct (waitForFunction_run ctx st)
    as (rs & r & pout & st'' & Hrun' & Hcalls & Hrs & _ & Hend).
  rewrite Hrun in Hrun'. inversion Hrun' as [[Hout Hst]]. subst st''.
  rewrite Hrec in Hcalls. apply app_inv_head in Hcalls.
  destruct (fatal_answer_is_last _ _ _ _ _ _ _ _ Hrs Hfatal Hcalls)
    as (-> & -> & ->).
  inversion Hend; subst; [|congruence].
  repeat split; auto.
Qed.

(** C8: when the first two look-ups of a wait were answered "missing" and
    the third returned the object, the wait succeeded with that object,
    exactly three look-ups were made, and the time elapsed is at most the
    timeout. *)
Theorem third_poll_finds_function (ctx : context.Context) (st st' : St)
        (out : catalog.FunctionInfo * diag.Diagnostics)
        (t1 t2 t3 : Z) (n1 n2 n3 : string) (e1 e2 : go_error)
        (obj : catalog.FunctionInfo) (rest : list (Z * Call)) :
  waitForFunction interval ctx w funcInfo st = Some (out, st') ->
  calls st' = calls st
              ++ (t1, CallGetByName n1 (inr e1))
              :: (t2, CallGetByName n2 (inr e2))
              :: (t3, CallGetByName n3 (inl obj)) :: rest ->
  apierr.IsMissing e1 = true ->
  apierr.IsMissing e2 = true ->
  out = (obj, [])
  /\ length (new_calls st st') = 3%nat
  /\ clock st' - clock st = 2 * Z.pos interval
  /\ clock st' - clock st <= waitForFunction_timeout.
Proof.
  intros Hrun Hrec _ _.
  destruct (waitForFunction_run ctx st)
    as (rs & r & pout & st'' & Hrun' & Hcalls & Hrs & Hlate & Hend).
  rewrite Hrun in Hrun'. inversion Hrun' as [[Hout Hst]]. subst st''.
  pose proof (new_calls_app _ _ _ Hrec) as Hnew.
  rewrite Hrec in Hcalls. apply app_inv_head in Hcalls.
  change ((t1, CallGetByName n1 (inr e1))
            :: (t2, CallGetByName n2 (inr e2))
            :: (t3, CallGetByName n3 (inl obj)) :: rest)
    with ([(t1, CallGetByName n1 (inr e1)); (t2, CallGetByName n2 (inr e2))]
            ++ (t3, CallGetByName n3 (inl obj)) :: rest) in Hcalls.
  destruct (found_answer_is_last _ _ _ _ _ _ _ _ Hrs Hcalls) as (-> & -> & Hpre).
  assert (Hlen : length rs = 2%nat).
  { rewrite <- (poll_calls_length (clock st) rs), <- Hpre. reflexivity. }
  rewrite Hlen in *.
  pose proof (deadline_within ctx (clock st) waitForFunction_timeout) as Hd.
  fold (wait_deadline ctx st) in Hd.
  inversion Hend; subst.
  split; [reflexivity|]. split; [now rewrite Hnew|].
  destruct Hlate as [Hnil | Hlate]; [subst rs; discriminate|]. lia.
Qed.

(** The run behind C8, from the side of the remote: if it answers "missing"
    twice and then the object, and two intervals fit before the deadline,
    the wait makes exactly those three look-ups and succeeds. *)
Lemma third_poll_is_reached (ctx : context.Context) (st : St)
      (e1 e2 : go_error) (obj : catalog.FunctionInfo) (w1 w2 w3 : W) :
  GetByName name (world st) = (inr e1, w1) -> apierr.IsMissing e1 = true ->
  GetByName name w1 = (inr e2, w2) -> apierr.IsMissing e2 = true ->
  GetByName name w2 = (inl obj, w3) ->
  clock st + 2 * Z.pos interval < wait_deadline ctx st ->
  waitForFunction interval ctx w funcInfo st
  = Some ((obj, []),
          mk_St w3 (clock st + 2 * Z.pos interval)
                (calls st
                 ++ poll_calls interval funcInfo (clock st)
                      [inr e1; inr e2; inl obj])).
Proof.
  intros H1 M1 H2 M2 H3 Hfit.
  pose proof (deadline_within ctx (clock st) waitForFunction_timeout) as Hd.
  unfold wait_deadline in Hfit.
  assert (Hq : 2 <= waitForFunction_timeout / Z.pos interval)
    by (apply Z.div_le_lower_bound; lia).
  assert (L1 : (context.deadline ctx (clock st) waitForFunction_timeout
                <=? clock st + Z.pos interval) = false)
    by (apply Z.leb_gt; lia).
  assert (L2 : (context.deadline ctx (clock st) waitForFunction_timeout
                <=? clock st + Z.pos interval + Z.pos interval) = false)
    by (apply Z.leb_gt; lia).
  unfold waitForFunction, retries.Poll, bind at 1, now.
  unfold retries.attempts_bound.
  destruct (Z.to_nat (waitForFunction_timeout / Z.pos interval))
    as [|[|fuel]] eqn:Hfuel; [lia | lia |].
  unfold bind. rewrite poll_loop_step, H1, M1, L1.
  rewrite poll_loop_step. cbn [world clock calls at_clock polled].
  rewrite H2, M2, L2.
  rewrite poll_loop_step. cbn [world clock calls at_clock polled].
  rewrite H3. cbn [poll_calls].
  unfold ret, polled, at_clock. cbn [world clock calls].
  rewrite <- !app_assoc. cbn [app].
  do 3 f_equal. lia.
Qed.

End Wait.

(** ** Create, Read and Delete around their remote call *)

Section Resource.

Context {W CreateFunctionRequest UpdateFunction : Type}.
Local Abbreviation St := (St W CreateFunctionRequest UpdateFunction).
Local Abbreviation WorkspaceClient :=
  (databricks.WorkspaceClient W CreateFunctionRequest UpdateFunction).
Local Abbreviation FunctionResource :=
  (@FunctionResource W CreateFunctionRequest UpdateFunction).

Variable interval : positive.
Variable TfSdkToGoSdkStruct_create :
  catalog_tf.FunctionInfo -> CreateFunctionRequest
  -> CreateFunctionRequest * diag.Diagnostics.
Variable GoSdkToTfSdkStruct :
  catalog.FunctionInfo -> catalog_tf.FunctionInfo
  -> catalog_tf.FunctionInfo * diag.Diagnostics.
Variable zero_CreateFunctionRequest : CreateFunctionRequest.

Local Abbreviation Create' :=
  (Create interval TfSdkToGoSdkStruct_create GoSdkToTfSdkStruct
          zero_CreateFunctionRequest).
Local Abbreviation Create_prepare' :=
  (Create_prepare TfSdkToGoSdkStruct_create zero_CreateFunctionRequest).
Local Abbreviation Read' := (Read GoSdkToTfSdkStruct).

Lemma Create_unfold (r : FunctionResource) (ctx : context.Context)
      (req : resource.CreateRequest) (resp : resource.CreateResponse) :
  Create' r ctx req resp =
  match Create_prepare' r req resp with
  | inl resp' => ret resp'
  | inr (w, planFunc, createReq, resp0) =>
      created <- Functions_Create w createReq ;;
      Create_finish interval GoSdkToTfSdkStruct
        (pluginfwcontext.SetUserAgentInResourceContext ctx resourceName)
        w planFunc resp0 created
  end.
Proof.
  unfold Create, Create_prepare, Create_finish.
  destruct (common.GetWorkspaceClient (Client r)) as [w diags].
  destruct (resource.HasError (resource.Append resp diags)); [reflexivity|].
  destruct (tfsdk.Get (resource.Plan req) catalog_tf.zero) as [planFunc d1].
  destruct (resource.HasError _); [reflexivity|].
  destruct (TfSdkToGoSdkStruct_create planFunc zero_CreateFunctionRequest)
    as [createReq d2].
  destruct (resource.HasError _); reflexivity.
Qed.

Lemma Create_prepare_inr (r : FunctionResource) (req : resource.CreateRequest)
      (resp resp0 : resource.CreateResponse) (w : WorkspaceClient)
      (planFunc : catalog_tf.FunctionInfo) (createReq : CreateFunctionRequest) :
  Create_prepare' r req resp = inr (w, planFunc, createReq, resp0) ->
  resource.State resp0 = resource.State resp
  /\ resource.HasError resp0 = false.
Proof.
  unfold Create_prepare.
  destruct (common.GetWorkspaceClient (Client r)) as [w' diags].
  destruct (resource.HasError (resource.Append resp diags)); [discriminate|].
  destruct (tfsdk.Get (resource.Plan req) catalog_tf.zero) as [planFunc' d1].
  destruct (resource.HasError _); [discriminate|].
  destruct (TfSdkToGoSdkStruct_create planFunc' zero_CreateFunctionRequest)
    as [createReq' d2].
  destruct (resource.HasError _) eqn:Hno; [discriminate|].
  intros H. inversion H; subst. split; [reflexivity | exact Hno].
Qed.

Lemma Read_prepare_inr (r : FunctionResource) (req : resource.ReadRequest)
      (resp resp0 : resource.ReadResponse) (w : WorkspaceClient)
      (stateFunc : catalog_tf.FunctionInfo) :
  Read_prepare r req resp = inr (w, stateFunc, resp0) ->
  resource.State resp0 = resource.State resp
  /\ resource.HasError resp0 = false.
Proof.
  unfold Read_prepare.
  destruct (common.GetWorkspaceClient (Client r)) as [w' diags].
  destruct (resource.HasError (resource.Append resp diags)); [discriminate|].
  destruct (tfsdk.Get (resource.State_ req) catalog_tf.zero) as [stateFunc' d1].
  destruct (resource.HasError _) eqn:Hno; [discriminate|].
  intros H. inversion H; subst. split; [reflexivity | exact Hno].
Qed.

Lemma Delete_prepare_inr (r : FunctionResource) (req : resource.DeleteRequest)
      (resp resp0 : resource.DeleteResponse) (w : WorkspaceClient)
      (deleteReq : catalog_tf.DeleteFunctionRequest) :
  Delete_prepare r req resp = inr (w, deleteReq, resp0) ->
  resource.State resp0 = resource.State resp
  /\ resource.HasError resp0 = false.
Proof.
  unfold Delete_prepare.
  destruct (common.GetWorkspaceClient (Client r)) as [w' diags].
  destruct (resource.HasError (resource.Append resp diags)); [discriminate|].
  destruct (tfsdk.GetAttribute _ _ _) as [name d1].
  destruct (resource.HasError _) eqn:Hno; [discriminate|].
  intros H. inversion H; subst. split; [reflexivity | exact Hno].
Qed.

Lemma AddError_response (resp : resource.Response) (summary detail : string) :
  resource.HasError resp = false ->
  resource.AddError resp summary detail
  = resource.mk_Response
      (resource.State resp)
      (resource.Diagnostics resp ++ [diag.NewErrorDiagnostic summary detail]).
Proof.
  intros H. unfold resource.AddError, resource.with_Diagnostics.
  now rewrite AddError_fresh.
Qed.

(** C6: when the creation call fails, [Create] returns at once: the
    response gains exactly one error diagnostic, "failed to create function",
    whose detail is the remote error's text; its state is the one it came
    with; the record gains the single creation call and no look-up, and the
    clock has not moved (no retry, no stabilization wait). *)
Theorem Create_api_failure (r : FunctionResource) (ctx : context.Context)
        (req : resource.CreateRequest) (resp resp0 : resource.CreateResponse)
        (st : St) (w : WorkspaceClient) (planFunc : catalog_tf.FunctionInfo)
        (createReq : CreateFunctionRequest) (err : go_error) (wd : W) :
  Create_prepare' r req resp = inr (w, planFunc, createReq, resp0) ->
  catalog.Create (databricks.Functions w) createReq (world st) = (inr err, wd) ->
  Create' r ctx req resp st
  = Some (resource.mk_Response
            (resource.State resp)
            (resource.Diagnostics resp0
             ++ [diag.NewErrorDiagnostic "failed to create function" (Error err)]),
          mk_St wd (clock st)
                (calls st ++ [(clock st, CallCreate createReq (inr err))])).
Proof.
  intros Hprep Hcall.
  destruct (Create_prepare_inr _ _ _ _ _ _ _ Hprep) as [Hstate Hno].
  rewrite Create_unfold, Hprep.
  unfold bind, Functions_Create, remote. rewrite Hcall. cbn [Create_finish].
  rewrite (AddError_response _ _ _ Hno), Hstate. reflexivity.
Qed.

(** C4: when the fetch of [Read] fails with an error that
    [apierr.IsMissing] accepts, the response's state is removed and its
    diagnostics, which hold no error, are left as they were; with any other
    error the response gains one error diagnostic, "failed to get function"
    with the error's text, and keeps the state it came with. *)
Theorem Read_fetch_failure (r : FunctionResource) (ctx : context.Context)
        (req : resource.ReadRequest) (resp resp0 : resource.ReadResponse)
        (st : St) (w : WorkspaceClient) (stateFunc : catalog_tf.FunctionInfo)
        (err : go_error) (wd : W) :
  Read_prepare r req resp = inr (w, stateFunc, resp0) ->
  catalog.GetByName (databricks.Functions w)
                    (types.ValueString (catalog_tf.Name stateFunc)) (world st)
  = (inr err, wd) ->
  Read' r ctx req resp st
  = Some (if apierr.IsMissing err
          then resource.mk_Response (tfsdk.mk_State None)
                                    (resource.Diagnostics resp0)
          else resource.mk_Response
                 (resource.State resp)
                 (resource.Diagnostics resp0
                  ++ [diag.NewErrorDiagnostic "failed to get function" (Error err)]),
          mk_St wd (clock st)
                (calls st
                 ++ [(clock st,
                      CallGetByName (types.ValueString (catalog_tf.Name stateFunc))
                                    (inr err))]))
  /\ diag.HasError (resource.Diagnostics resp0) = false.
Proof.
  intros Hprep Hcall.
  destruct (Read_prepare_inr _ _ _ _ _ _ Hprep) as [Hstate Hno].
  split; [|exact Hno].
  unfold Read, Read_prepare in *.
  destruct (common.GetWorkspaceClient (Client r)) as [w' diags].
  destruct (resource.HasError (resource.Append resp diags)); [discriminate|].
  destruct (tfsdk.Get (resource.State_ req) catalog_tf.zero) as [stateFunc' d1].
  destruct (resource.HasError _); [discriminate|].
  inversion Hprep; subst.
  unfold bind, Functions_GetByName, remote. rewrite Hcall.
  destruct (apierr.IsMissing err); unfold ret.
  - reflexivity.
  - rewrite (AddError_response _ _ _ Hno), Hstate. reflexivity.
Qed.

(** C5: [Delete] adds no diagnostic when the deletion call succeeds or fails
    with an error that [apierr.IsMissing] accepts (the object is already
    absent), so its response holds no error; any other error adds one error
    diagnostic, "failed to delete function" with the error's text.  This
    holds at every state of the remote world, in particular at the one a
    first deletion left behind. *)
Theorem Delete_absent_is_success (r : FunctionResource) (ctx : context.Context)
        (req : resource.DeleteRequest) (resp resp0 : resource.DeleteResponse)
        (st : St) (w : WorkspaceClient)
        (deleteReq : catalog_tf.DeleteFunctionRequest)
        (res : option go_error) (wd : W) :
  Delete_prepare r req resp = inr (w, deleteReq, resp0) ->
  catalog.DeleteByName (databricks.Functions w)
                       (types.ValueString (catalog_tf.Name_ deleteReq)) (world st)
  = (res, wd) ->
  Delete r ctx req resp st
  = Some (match res with
          | None => resp0
          | Some e =>
              if apierr.IsMissing e then resp0
              else resource.mk_Response
                     (resource.State resp)
                     (resource.Diagnostics resp0
                      ++ [diag.NewErrorDiagnostic "failed to delete function"
                                                  (Error e)])
          end,
          mk_St wd (clock st)
                (calls st
                 ++ [(clock st,
                      CallDeleteByName
                        (types.ValueString (catalog_tf.Name_ deleteReq)) res)]))
  /\ resource.HasError resp0 = false.
Proof.
  intros Hprep Hcall.
  destruct (Delete_prepare_inr _ _ _ _ _ _ Hprep) as [Hstate Hno].
  split; [|exact Hno].
  unfold Delete, Delete_prepare in *. cbn [catalog_tf.Name_] in *.
  destruct (common.GetWorkspaceClient (Client r)) as [w' diags].
  destruct (resource.HasError (resource.Append resp diags)); [discriminate|].
  destruct (tfsdk.GetAttribute _ _ _) as [name d1].
  destruct (resource.HasError _); [discriminate|].
  inversion Hprep; subst. cbn [catalog_tf.Name_] in *.
  unfold bind, Functions_DeleteByName, remote. rewrite Hcall.
  destruct res as [e|]; [|reflexivity].
  destruct (apierr.IsMissing e); cbn [negb]; unfold ret; [reflexivity|].
  rewrite (AddError_response _ _ _ Hno), Hstate. reflexivity.
Qed.

(** C10: the wait touches [funcInfo] only when it succeeds.  A wait that
    returns no diagnostic returns the object answered by the last look-up in
    its record; otherwise it returns [funcInfo] as it was, with one error
    diagnostic.  In [Create], what is converted and stored after a successful
    wait is that polled object, not the answer of the creation call. *)
Theorem wait_overwrites_only_on_success :
  (forall (ctx : context.Context) (w : WorkspaceClient)
          (funcInfo funcInfo' : catalog.FunctionInfo)
          (diags : diag.Diagnostics) (st st' : St),
      waitForFunction interval ctx w funcInfo st = Some ((funcInfo', diags), st') ->
      (diags = []
       /\ exists pre t,
           calls st' = calls st ++ pre
                       ++ [(t, CallGetByName (catalog.FullName funcInfo)
                                             (inl funcInfo'))])
      \/ (funcInfo' = funcInfo
          /\ exists detail,
              diags = [diag.NewErrorDiagnostic "failed to create function" detail]))
  /\ (forall (r : FunctionResource) (ctx : context.Context)
             (req : resource.CreateRequest) (resp resp0 : resource.CreateResponse)
             (st st' : St) (w : WorkspaceClient)
             (planFunc stored : catalog_tf.FunctionInfo)
             (createReq : CreateFunctionRequest)
             (raw polled : catalog.FunctionInfo) (wd : W) (d : diag.Diagnostics),
         Create_prepare' r req resp = inr (w, planFunc, createReq, resp0) ->
         catalog.Create (databricks.Functions w) createReq (world st)
         = (inl raw, wd) ->
         waitForFunction interval
           (pluginfwcontext.SetUserAgentInResourceContext ctx resourceName)
           w raw
           (mk_St wd (clock st)
                  (calls st ++ [(clock st, CallCreate createReq (inl raw))]))
         = Some ((polled, []), st') ->
         GoSdkToTfSdkStruct polled planFunc = (stored, d) ->
         resource.HasError (resource.Append resp0 d) = false ->
         Create' r ctx req resp st
         = Some (resource.mk_Response
                   (tfsdk.mk_State (Some stored))
                   (resource.Diagnostics (resource.Append resp0 d)),
                 st')).
Proof.
  split.
  - intros ctx w funcInfo funcInfo' diags st st'. apply wait_frame.
  - intros r ctx req resp resp0 st st' w planFunc stored createReq raw polled
           wd d Hprep Hcall Hwait Hconv Hno.
    rewrite Create_unfold, Hprep.
    unfold bind at 1. unfold Functions_Create, remote. rewrite Hcall.
    cbn [Create_finish]. unfold bind. rewrite Hwait.
    rewrite Append_nil_r.
    destruct (Create_prepare_inr _ _ _ _ _ _ _ Hprep) as [_ Hno0].
    rewrite Hno0, Hconv, Hno. cbn. unfold ret. now rewrite Append_nil_r.
Qed.

End Resource.

(** ** The key of Read's look-up *)

(** C1: [Read] does not look the function up by its full name.  With
    [main.default.f] stored in state and present on the remote, [Read] asks
    for ["f"], the [name] attribute, is told the function is missing and
    drops it from state; on the state seeded by importing [main.default.f],
    where only [full_name] is set, it asks for the empty name. *)
Theorem Read_key_is_name_attribute :
  types.ValueString (catalog_tf.FullName Fake.stored) = "main.default.f"
  /\ Scenario.read Scenario.read_request Scenario.stored_response
                   (Fake.start Scenario.present)
     = Some (resource.mk_Response (tfsdk.mk_State None) [],
             mk_St Scenario.present 0
                   [(0, CallGetByName "f" (inr Fake.not_found))])
  /\ tfsdk.GetAttribute Scenario.imported (path.Root "full_name") types.StringNull
     = (types.StringValue "main.default.f", [])
  /\ Scenario.read {| resource.State_ := Scenario.imported |}
                   (resource.mk_Response Scenario.imported [])
                   (Fake.start Scenario.present)
     = Some (resource.mk_Response (tfsdk.mk_State None) [],
             mk_St Scenario.present 0
                   [(0, CallGetByName "" (inr Fake.not_found))]).
Proof. repeat split; vm_compute; reflexivity. Qed.

(** ** The theorems at concrete inputs *)

Lemma no_poll_after_fatal_witness :
  Scenario.wait (Fake.start Scenario.down)
  = Some ((Fake.remote_f, [poll_fatal Fake.unavailable]), Scenario.down_end)
  /\ (@nil (Z * Call catalog.FunctionInfo (string * string)) = []
      /\ clock Scenario.down_end = 0
      /\ (Fake.remote_f, [poll_fatal Fake.unavailable])
         = (Fake.remote_f, [poll_fatal Fake.unavailable])).
Proof.
  split; [vm_compute; reflexivity|].
  apply (no_poll_after_fatal
           Fake.one_second Fake.workspace Fake.remote_f context.Background
           (Fake.start Scenario.down) Scenario.down_end
           (Fake.remote_f, [poll_fatal Fake.unavailable])
           [] [] 0 "main.default.f" Fake.unavailable);
    vm_compute; reflexivity.
Defined.

Lemma third_poll_finds_function_witness :
  Scenario.wait (Fake.start Scenario.lagging)
  = Some ((Fake.remote_f, []), Scenario.lagging_end)
  /\ ((Fake.remote_f, @nil diag.Diagnostic) = (Fake.remote_f, [])
      /\ length (new_calls (Fake.start Scenario.lagging) Scenario.lagging_end)
         = 3%nat
      /\ clock Scenario.lagging_end - clock (Fake.start Scenario.lagging)
         = 2 * Z.pos Fake.one_second
      /\ clock Scenario.lagging_end - clock (Fake.start Scenario.lagging)
         <= waitForFunction_timeout).
Proof.
  split; [vm_compute; reflexivity|].
  apply (third_poll_finds_function
           Fake.one_second Fake.workspace Fake.remote_f context.Background
           (Fake.start Scenario.lagging) Scenario.lagging_end
           (Fake.remote_f, [])
           0 1000000000 2000000000
           "main.default.f" "main.default.f" "main.default.f"
           Fake.not_found Fake.not_found Fake.remote_f []);
    vm_compute; reflexivity.
Defined.

Lemma Create_api_failure_witness :
  Scenario.create Scenario.create_request Fake.empty_response
                  (Fake.start Scenario.down)
  = Some (resource.mk_Response
            (tfsdk.mk_State None)
            [diag.NewErrorDiagnostic "failed to create function"
                                     "503 service unavailable"],
          mk_St Scenario.down 0
                [(0, CallCreate (fst (Fake.to_create Fake.planned Fake.zero_create))
                                (inr Fake.unavailable))]).
Proof.
  apply (Create_api_failure
           Fake.one_second Fake.to_create Fake.to_tf Fake.zero_create
           Fake.client context.Background Scenario.create_request
           Fake.empty_response Fake.empty_response (Fake.start Scenario.down)
           Fake.workspace Fake.planned
           (fst (Fake.to_create Fake.planned Fake.zero_create))
           Fake.unavailable Scenario.down);
    vm_compute; reflexivity.
Defined.

Lemma Read_fetch_failure_witness :
  (Scenario.read Scenario.read_request Scenario.stored_response
                 (Fake.start Scenario.absent)
   = Some (resource.mk_Response (tfsdk.mk_State None) [],
           mk_St Scenario.absent 0 [(0, CallGetByName "f" (inr Fake.not_found))])
   /\ diag.HasError [] = false)
  /\ (Scenario.read Scenario.read_request Scenario.stored_response
                    (Fake.start Scenario.down)
      = Some (resource.mk_Response
                Scenario.stored_state
                [diag.NewErrorDiagnostic "failed to get function"
                                         "503 service unavailable"],
              mk_St Scenario.down 0 [(0, CallGetByName "f" (inr Fake.unavailable))])
      /\ diag.HasError [] = false).
Proof.
  split.
  - apply (Read_fetch_failure
             Fake.to_tf Fake.client context.Background Scenario.read_request
             Scenario.stored_response Scenario.stored_response
             (Fake.start Scenario.absent) Fake.workspace Fake.stored
             Fake.not_found Scenario.absent);
      vm_compute; reflexivity.
  - apply (Read_fetch_failure
             Fake.to_tf Fake.client context.Background Scenario.read_request
             Scenario.stored_response Scenario.stored_response
             (Fake.start Scenario.down) Fake.workspace Fake.stored
             Fake.unavailable Scenario.down);
      vm_compute; reflexivity.
Defined.

Lemma Delete_absent_is_success_witness :
  Scenario.delete Scenario.delete_request Scenario.stored_response
                  (Fake.start Scenario.present)
  = Some (Scenario.stored_response, Scenario.after_first_delete)
  /\ (Scenario.delete Scenario.delete_request Scenario.stored_response
                      Scenario.after_first_delete
      = Some (Scenario.stored_response,
              mk_St (world Scenario.after_first_delete) 0
                    [(0, CallDeleteByName "main.default.f" None);
                     (0, CallDeleteByName "main.default.f" (Some Fake.not_found))])
      /\ resource.HasError Scenario.stored_response = false).
Proof.
  split; [vm_compute; reflexivity|].
  apply (Delete_absent_is_success
           Fake.client context.Background Scenario.delete_request
           Scenario.stored_response Scenario.stored_response
           Scenario.after_first_delete Fake.workspace
           (catalog_tf.mk_DeleteFunctionRequest (types.StringValue "main.default.f"))
           (Some Fake.not_found) (world Scenario.after_first_delete));
    vm_compute; reflexivity.
Defined.

Lemma wait_overwrites_only_on_success_witness :
  ((@nil diag.Diagnostic = []
    /\ exists pre t,
        calls Scenario.lagging_end
        = calls (Fake.start Scenario.lagging) ++ pre
          ++ [(t, CallGetByName (catalog.FullName Fake.remote_f)
                                (inl Fake.remote_f))])
   \/ (Fake.remote_f = Fake.remote_f
       /\ exists detail,
           [] = [diag.NewErrorDiagnostic "failed to create function" detail]))
  /\ Scenario.create Scenario.create_request Fake.empty_response
                     (Fake.start Scenario.absent)
     = Some (resource.mk_Response Scenario.stored_state [], Scenario.after_create).
Proof.
  split.
  - apply (proj1 (wait_overwrites_only_on_success
                    Fake.one_second Fake.to_create Fake.to_tf Fake.zero_create)
                 context.Background Fake.workspace Fake.remote_f Fake.remote_f []
                 (Fake.start Scenario.lagging) Scenario.lagging_end).
    vm_compute; reflexivity.
  - apply (proj2 (wait_overwrites_only_on_success
                    Fake.one_second Fake.to_create Fake.to_tf Fake.zero_create)
                 Fake.client context.Background Scenario.create_request
                 Fake.empty_response Fake.empty_response
                 (Fake.start Scenario.absent) Scenario.after_create
                 Fake.workspace Fake.planned Fake.stored
                 (fst (Fake.to_create Fake.planned Fake.zero_create))
                 Fake.remote_f Fake.remote_f
                 (Fake.mk_World [(Fake.remote_f, 2%nat)] 2 false) []);
      vm_compute; reflexivity.
Defined.

(** * Further properties *)

(** ** Diagnostics and responses *)

Lemma HasError_Append (diags more : diag.Diagnostics) :
  diag.HasError (diag.Append diags more)
  = diag.HasError diags || diag.HasError more.
Proof.
  revert diags. induction more as [|d rest IH]; intros diags; cbn [diag.Append].
  - change (diag.HasError []) with false. now rewrite orb_false_r.
  - change (diag.HasError (d :: rest))
      with (diag.is_error d || diag.HasError rest).
    destruct (diag.Contains diags d) eqn:Hc; rewrite IH.
    + destruct (diag.is_error d) eqn:Hd; [|reflexivity].
      assert (Hdiags : diag.HasError diags = true).
      { apply existsb_exists in Hc as (x & Hin & Heq).
        apply existsb_exists. exists x. split; [assumption|].
        unfold diag.Equal in Heq. unfold diag.is_error in *.
        destruct (diag.severity x), (diag.severity d);
          try discriminate; reflexivity. }
      now rewrite Hdiags.
    + unfold diag.HasError. rewrite existsb_app. cbn [existsb].
      now rewrite orb_false_r, orb_assoc.
Qed.

Lemma Append_grows (diags more : diag.Diagnostics) :
  exists extra, diag.Append diags more = diags ++ extra.
Proof.
  revert diags. induction more as [|d rest IH]; intros diags; cbn [diag.Append].
  - exists []. now rewrite app_nil_r.
  - destruct (diag.Contains diags d); [apply IH|].
    destruct (IH (diags ++ [d])) as [extra ->].
    exists (d :: extra). now rewrite <- app_assoc.
Qed.

Lemma grown_refl (resp : resource.Response) : grown resp resp.
Proof. split; [reflexivity|]. exists []. now rewrite app_nil_r. Qed.

Lemma grown_trans (a b c : resource.Response) :
  grown a b -> grown b c -> grown a c.
Proof.
  intros [Hs1 [e1 Hd1]] [Hs2 [e2 Hd2]]. split; [congruence|].
  exists (e1 ++ e2). now rewrite Hd2, Hd1, app_assoc.
Qed.

Lemma grown_Append (resp : resource.Response) (more : diag.Diagnostics) :
  grown resp (resource.Append resp more).
Proof.
  split; [reflexivity|].
  unfold resource.Append, resource.with_Diagnostics.
  cbn [resource.Diagnostics]. apply Append_grows.
Qed.

Lemma grown_AddError (resp : resource.Response) (summary detail : string) :
  grown resp (resource.AddError resp summary detail).
Proof.
  split; [reflexivity|].
  unfold resource.AddError, resource.with_Diagnostics, diag.AddError.
  cbn [resource.Diagnostics]. apply Append_grows.
Qed.

Lemma grown_settled (a b : resource.Response) : grown a b -> settled a b.
Proof. intros [Hs Hd]. split; auto. Qed.

Lemma settled_after (a b c : resource.Response) :
  grown a b -> settled b c -> settled a c.
Proof.
  intros [Hs1 [e1 Hd1]] [[e2 Hd2] Hs2]. split.
  - exists (e1 ++ e2). now rewrite Hd2, Hd1, app_assoc.
  - intros H. rewrite (Hs2 H). exact Hs1.
Qed.

Lemma HasError_resource_Append (resp : resource.Response)
      (more : diag.Diagnostics) :
  resource.HasError (resource.Append resp more)
  = resource.HasError resp || diag.HasError more.
Proof. unfold resource.HasError. cbn. apply HasError_Append. Qed.

Section Tail.

Variable GoSdkToTfSdkStruct :
  catalog.FunctionInfo -> catalog_tf.FunctionInfo
  -> catalog_tf.FunctionInfo * diag.Diagnostics.

Lemma store_converted_settled (funcInfo : catalog.FunctionInfo)
      (target : catalog_tf.FunctionInfo) (resp : resource.Response) :
  settled resp (store_converted GoSdkToTfSdkStruct funcInfo target resp).
Proof.
  unfold store_converted.
  destruct (GoSdkToTfSdkStruct funcInfo target) as [converted d].
  destruct (resource.HasError (resource.Append resp d)) eqn:Herr.
  - apply grown_settled, grown_Append.
  - unfold tfsdk.Set_. rewrite Append_nil_r. split.
    + destruct (grown_Append resp d) as [_ Hd]. exact Hd.
    + unfold resource.HasError, resource.with_State in *.
      cbn [resource.Diagnostics]. congruence.
Qed.

End Tail.

(** ** The four life-cycle methods, whole *)

Ltac split_gates :=
  repeat match goal with
         | |- context [match ?x with pair _ _ => _ end] => destruct x eqn:?
         | |- context [if ?b then _ else _] => destruct b eqn:?
         end.

Ltac grown_chain :=
  repeat (eapply grown_trans; [|apply grown_Append]); apply grown_refl.

Section Methods.

Context {W CreateFunctionRequest UpdateFunction : Type}.
Local Abbreviation St := (St W CreateFunctionRequest UpdateFunction).
Local Abbreviation Call := (Call CreateFunctionRequest UpdateFunction).
Local Abbreviation WorkspaceClient :=
  (databricks.WorkspaceClient W CreateFunctionRequest UpdateFunction).
Local Abbreviation FunctionResource :=
  (@FunctionResource W CreateFunctionRequest UpdateFunction).

Variable interval : positive.
Variable TfSdkToGoSdkStruct_create :
  catalog_tf.FunctionInfo -> CreateFunctionRequest
  -> CreateFunctionRequest * diag.Diagnostics.
Variable TfSdkToGoSdkStruct_update :
  catalog_tf.FunctionInfo -> UpdateFunction
  -> UpdateFunction * diag.Diagnostics.
Variable GoSdkToTfSdkStruct :
  catalog.FunctionInfo -> catalog_tf.FunctionInfo
  -> catalog_tf.FunctionInfo * diag.Diagnostics.
Variable zero_CreateFunctionRequest : CreateFunctionRequest.
Variable zero_UpdateFunction : UpdateFunction.

Local Abbreviation Create' :=
  (Create interval TfSdkToGoSdkStruct_create GoSdkToTfSdkStruct
          zero_CreateFunctionRequest).
Local Abbreviation Create_prepare' :=
  (Create_prepare TfSdkToGoSdkStruct_create zero_CreateFunctionRequest).
Local Abbreviation Update' :=
  (Update TfSdkToGoSdkStruct_update GoSdkToTfSdkStruct zero_UpdateFunction).
Local Abbreviation Update_prepare' :=
  (Update_prepare TfSdkToGoSdkStruct_update zero_UpdateFunction).
Local Abbreviation Read' := (Read GoSdkToTfSdkStruct).
Local Abbreviation store := (store_converted GoSdkToTfSdkStruct).

Lemma Create_whole (r : FunctionResource) (ctx : context.Context)
      (req : resource.CreateRequest) (resp : resource.CreateResponse) (st : St) :
  Create' r ctx req resp st =
  match Create_prepare' r req resp with
  | inl resp' => Some (resp', st)
  | inr (w, planFunc, createReq, resp0) =>
      let '(res, wd) :=
        catalog.Create (databricks.Functions w) createReq (world st) in
      let st1 := mk_St wd (clock st)
                       (calls st ++ [(clock st, CallCreate createReq res)]) in
      match res with
      | inr err =>
          Some (resource.AddError resp0 "failed to create function" (Error err),
                st1)
      | inl raw =>
          match waitForFunction
                  interval
                  (pluginfwcontext.SetUserAgentInResourceContext ctx resourceName)
                  w raw st1 with
          | Some ((polled, d), st2) =>
              Some (if resource.HasError (resource.Append resp0 d)
                    then resource.Append resp0 d
                    else store polled planFunc (resource.Append resp0 d),
                    st2)
          | None => None
          end
      end
  end.
Proof.
  rewrite Create_unfold.
  destruct (Create_prepare' r req resp) as [resp'|[[[w planFunc] createReq] resp0]];
    [reflexivity|].
  unfold bind at 1. unfold Functions_Create, remote.
  destruct (catalog.Create _ _ _) as [[raw|err] wd]; [|reflexivity].
  cbn [Create_finish]. unfold bind.
  destruct (waitForFunction _ _ _ _ _) as [[[polled d] st2]|]; [|reflexivity].
  unfold store_converted.
  destruct (resource.HasError (resource.Append resp0 d)); [reflexivity|].
  destruct (GoSdkToTfSdkStruct polled planFunc) as [converted d'].
  destruct (resource.HasError _); reflexivity.
Qed.

Lemma Update_whole (r : FunctionResource) (ctx : context.Context)
      (req : resource.UpdateRequest) (resp : resource.UpdateResponse) (st : St) :
  Update' r ctx req resp st =
  match Update_prepare' r req resp with
  | inl resp' => Some (resp', st)
  | inr (w, planFunc, updateReq, resp0) =>
      let '(res, wd) :=
        catalog.Update (databricks.Functions w) updateReq (world st) in
      Some (match res with
            | inr err =>
                resource.AddError resp0 "failed to update function" (Error err)
            | inl funcInfo => store funcInfo planFunc resp0
            end,
            mk_St wd (clock st)
                  (calls st ++ [(clock st, CallUpdate updateReq res)]))
  end.
Proof.
  unfold Update, Update_prepare.
  destruct (common.GetWorkspaceClient (Client r)) as [w diags].
  destruct (resource.HasError (resource.Append resp diags)); [reflexivity|].
  destruct (tfsdk.Get (resource.Plan_ req) catalog_tf.zero) as [planFunc d1].
  destruct (resource.HasError _); [reflexivity|].
  destruct (TfSdkToGoSdkStruct_update planFunc zero_UpdateFunction)
    as [updateReq d2].
  destruct (resource.HasError _); [reflexivity|].
  unfold bind, Functions_Update, remote.
  destruct (catalog.Update _ _ _) as [[funcInfo|err] wd]; [|reflexivity].
  unfold store_converted.
  destruct (GoSdkToTfSdkStruct funcInfo planFunc) as [converted d'].
  destruct (resource.HasError _); reflexivity.
Qed.

Lemma Read_whole (r : FunctionResource) (ctx : context.Context)
      (req : resource.ReadRequest) (resp : resource.ReadResponse) (st : St) :
  Read' r ctx req resp st =
  match Read_prepare r req resp with
  | inl resp' => Some (resp', st)
  | inr (w, stateFunc, resp0) =>
      let key := types.ValueString (catalog_tf.Name stateFunc) in
      let '(res, wd) := catalog.GetByName (databricks.Functions w) key (world st) in
      Some (match res with
            | inr err =>
                if apierr.IsMissing err
                then resource.with_State
                       resp0 (tfsdk.RemoveResource (resource.State resp0))
                else resource.AddError resp0 "failed to get function" (Error err)
            | inl funcInfo => store funcInfo stateFunc resp0
            end,
            mk_St wd (clock st)
                  (calls st ++ [(clock st, CallGetByName key res)]))
  end.
Proof.
  unfold Read, Read_prepare.
  destruct (common.GetWorkspaceClient (Client r)) as [w diags].
  destruct (resource.HasError (resource.Append resp diags)); [reflexivity|].
  destruct (tfsdk.Get (resource.State_ req) catalog_tf.zero) as [stateFunc d1].
  destruct (resource.HasError _); [reflexivity|].
  unfold bind, Functions_GetByName, remote.
  destruct (catalog.GetByName _ _ _) as [[funcInfo|err] wd].
  - unfold store_converted.
    destruct (GoSdkToTfSdkStruct funcInfo stateFunc) as [converted d'].
    destruct (resource.HasError _); reflexivity.
  - destruct (apierr.IsMissing err); reflexivity.
Qed.

Lemma Delete_whole (r : FunctionResource) (ctx : context.Context)
      (req : resource.DeleteRequest) (resp : resource.DeleteResponse) (st : St) :
  Delete r ctx req resp st =
  match Delete_prepare r req resp with
  | inl resp' => Some (resp', st)
  | inr (w, deleteReq, resp0) =>
      let key := types.ValueString (catalog_tf.Name_ deleteReq) in
      let '(res, wd) :=
        catalog.DeleteByName (databricks.Functions w) key (world st) in
      Some (match res with
            | Some e =>
                if apierr.IsMissing e then resp0
                else resource.AddError resp0 "failed to delete function" (Error e)
            | None => resp0
            end,
            mk_St wd (clock st)
                  (calls st ++ [(clock st, CallDeleteByName key res)]))
  end.
Proof.
  unfold Delete, Delete_prepare. cbn [catalog_tf.Name_].
  destruct (common.GetWorkspaceClient (Client r)) as [w diags].
  destruct (resource.HasError (resource.Append resp diags)); [reflexivity|].
  destruct (tfsdk.GetAttribute _ _ _) as [name d1].
  destruct (resource.HasError _); [reflexivity|].
  unfold bind, Functions_DeleteByName, remote. cbn [catalog_tf.Name_].
  destruct (catalog.DeleteByName _ _ _) as [[e|] wd]; [|reflexivity].
  destruct (apierr.IsMissing e); reflexivity.
Qed.

(** Each method's gates only add diagnostics; past them none is an error. *)
Lemma Create_gates (r : FunctionResource) (req : resource.CreateRequest)
      (resp : resource.CreateResponse) :
  match Create_prepare' r req resp with
  | inl resp' => grown resp resp' /\ resource.HasError resp' = true
  | inr (_, _, _, resp0) => grown resp resp0 /\ resource.HasError resp0 = false
  end.
Proof. unfold Create_prepare. split_gates; (split; [grown_chain | assumption]). Qed.

Lemma Update_gates (r : FunctionResource) (req : resource.UpdateRequest)
      (resp : resource.UpdateResponse) :
  match Update_prepare' r req resp with
  | inl resp' => grown resp resp' /\ resource.HasError resp' = true
  | inr (_, _, _, resp0) => grown resp resp0 /\ resource.HasError resp0 = false
  end.
Proof. unfold Update_prepare. split_gates; (split; [grown_chain | assumption]). Qed.

Lemma Read_gates (r : FunctionResource) (req : resource.ReadRequest)
      (resp : resource.ReadResponse) :
  match Read_prepare r req resp with
  | inl resp' => grown resp resp' /\ resource.HasError resp' = true
  | inr (_, _, resp0) => grown resp resp0 /\ resource.HasError resp0 = false
  end.
Proof. unfold Read_prepare. split_gates; (split; [grown_chain | assumption]). Qed.

Lemma Delete_gates (r : FunctionResource) (req : resource.DeleteRequest)
      (resp : resource.DeleteResponse) :
  match Delete_prepare r req resp with
  | inl resp' => grown resp resp' /\ resource.HasError resp' = true
  | inr (_, deleteReq, resp0) =>
      grown resp resp0 /\ resource.HasError resp0 = false
      /\ types.ValueString (catalog_tf.Name_ deleteReq) = Delete_key req
  end.
Proof.
  unfold Delete_prepare, Delete_key, tfsdk.GetAttribute.
  destruct (tfsdk.Raw (resource.State__ req)) as [v|];
    [change (tfsdk.attribute "full_name" v)
       with (Some (catalog_tf.FullName v))|];
    cbv iota beta; split_gates;
    first [ split; [grown_chain | assumption]
          | split; [grown_chain | split; [assumption | reflexivity]] ].
Qed.

Lemma new_calls_none (st : St) : new_calls st st = [].
Proof. apply new_calls_app. now rewrite app_nil_r. Qed.

Lemma wait_total (w : WorkspaceClient) (funcInfo : catalog.FunctionInfo)
      (ctx : context.Context) (st : St) :
  exists rs out st',
    waitForFunction interval ctx w funcInfo st = Some (out, st')
    /\ calls st' = calls st ++ poll_calls interval funcInfo (clock st) rs
    /\ rs <> []
    /\ clock st <= clock st' <= clock st + waitForFunction_timeout.
Proof.
  destruct (waitForFunction_run interval w funcInfo ctx st)
    as (rs & r & out & st' & Hrun & Hcalls & _ & Hlate & Hend).
  exists (rs ++ [r]), (wait_result funcInfo out), st'.
  split; [exact Hrun|]. split; [exact Hcalls|].
  split; [destruct rs; discriminate|].
  pose proof (deadline_within ctx (clock st) waitForFunction_timeout) as Hd.
  fold (wait_deadline ctx st) in Hd.
  assert (Ht : 0 < waitForFunction_timeout) by reflexivity.
  assert (Hlen : 0 <= Z.of_nat (length rs) * Z.pos interval) by lia.
  assert (Hl : clock st + Z.of_nat (length rs) * Z.pos interval
               <= clock st + waitForFunction_timeout).
  { destruct Hlate as [-> | Hlate]; [cbn; lia | lia]. }
  destruct Hend; lia.
Qed.

(** X1: a method that starts with an error already in its response, or
    whose workspace client cannot be obtained, returns at once: it answers
    the response with the client's diagnostics appended, which carries an
    error, and leaves the remote world, the clock and the call record as
    they were.  This holds for Create, Update, Read and Delete alike. *)
Theorem client_error_stops_every_method
        (r : FunctionResource) (ctx : context.Context)
        (creq : resource.CreateRequest) (ureq : resource.UpdateRequest)
        (rreq : resource.ReadRequest) (dreq : resource.DeleteRequest)
        (resp : resource.Response) (st : St) :
  resource.HasError resp = true
  \/ diag.HasError (snd (common.GetWorkspaceClient (Client r))) = true ->
  let stopped :=
    Some (resource.Append resp (snd (common.GetWorkspaceClient (Client r))), st) in
  Create' r ctx creq resp st = stopped
  /\ Update' r ctx ureq resp st = stopped
  /\ Read' r ctx rreq resp st = stopped
  /\ Delete r ctx dreq resp st = stopped
  /\ resource.HasError
       (resource.Append resp (snd (common.GetWorkspaceClient (Client r)))) = true.
Proof.
  intros H stopped. subst stopped.
  assert (Herr : resource.HasError
                   (resource.Append resp
                      (snd (common.GetWorkspaceClient (Client r)))) = true).
  { rewrite HasError_resource_Append. apply orb_true_iff. exact H. }
  unfold Create, Update, Read, Delete.
  destruct (common.GetWorkspaceClient (Client r)) as [w diags].
  cbn [snd] in *. rewrite Herr. repeat split; reflexivity.
Qed.

(** X2: Create always returns, at most 5 minutes of the clock after it
    started.  It makes no remote call at all, or one creation call that
    failed, or one creation call that succeeded followed by at least one
    look-up of the created function's full name, one interval apart.  It
    never calls Update or DeleteByName: a function whose wait failed stays
    on the remote. *)
Theorem Create_calls (r : FunctionResource) (ctx : context.Context)
        (req : resource.CreateRequest) (resp : resource.CreateResponse) (st : St) :
  exists resp' st',
    Create' r ctx req resp st = Some (resp', st')
    /\ clock st <= clock st' <= clock st + waitForFunction_timeout
    /\ (new_calls st st' = []
        \/ (exists createReq err,
               new_calls st st' = [(clock st, CallCreate createReq (inr err))])
        \/ (exists createReq raw rs,
               rs <> []
               /\ new_calls st st'
                  = (clock st, CallCreate createReq (inl raw))
                      :: poll_calls interval raw (clock st) rs)).
Proof.
  assert (Ht : 0 < waitForFunction_timeout) by reflexivity.
  rewrite Create_whole.
  destruct (Create_prepare' r req resp) as [resp'|[[[w planFunc] createReq] resp0]].
  - exists resp', st. split; [reflexivity|]. split; [lia|].
    left. apply new_calls_none.
  - destruct (catalog.Create _ _ _) as [[raw|err] wd]; cbv zeta.
    + destruct (wait_total
                  w raw
                  (pluginfwcontext.SetUserAgentInResourceContext ctx resourceName)
                  (mk_St wd (clock st)
                         (calls st ++ [(clock st, CallCreate createReq (inl raw))])))
        as (rs & [polled d] & st2 & Hrun & Hcalls & Hrs & Hclock).
      rewrite Hrun. cbn [clock calls] in *.
      eexists _, st2. split; [reflexivity|]. split; [exact Hclock|].
      right. right. exists createReq, raw, rs. split; [exact Hrs|].
      apply new_calls_app. rewrite Hcalls, <- app_assoc. reflexivity.
    + eexists _, _. split; [reflexivity|]. cbn [clock]. split; [lia|].
      right. left. exists createReq, err. now apply new_calls_app.
Qed.

Lemma Create_settled (r : FunctionResource) (ctx : context.Context)
      (req : resource.CreateRequest) (resp resp' : resource.Response)
      (st st' : St) :
  Create' r ctx req resp st = Some (resp', st') -> settled resp resp'.
Proof.
  rewrite Create_whole. pose proof (Create_gates r req resp) as Hg.
  destruct (Create_prepare' r req resp) as [resp1|[[[w planFunc] createReq] resp0]];
    destruct Hg as [Hg Herr].
  - intros H. inversion H; subst. now apply grown_settled.
  - destruct (catalog.Create _ _ _) as [[raw|err] wd]; cbv zeta.
    + destruct (waitForFunction _ _ _ _ _) as [[[polled d] st2]|];
        [|discriminate].
      intros H. inversion H; subst. clear H.
      destruct (resource.HasError (resource.Append resp0 d)).
      * apply grown_settled. eapply grown_trans; [exact Hg | apply grown_Append].
      * eapply settled_after; [|apply store_converted_settled].
        eapply grown_trans; [exact Hg | apply grown_Append].
    + intros H. inversion H; subst.
      apply grown_settled. eapply grown_trans; [exact Hg | apply grown_AddError].
Qed.

Lemma Update_settled (r : FunctionResource) (ctx : context.Context)
      (req : resource.UpdateRequest) (resp resp' : resource.Response)
      (st st' : St) :
  Update' r ctx req resp st = Some (resp', st') -> settled resp resp'.
Proof.
  rewrite Update_whole. pose proof (Update_gates r req resp) as Hg.
  destruct (Update_prepare' r req resp) as [resp1|[[[w planFunc] updateReq] resp0]];
    destruct Hg as [Hg Herr].
  - intros H. inversion H; subst. now apply grown_settled.
  - destruct (catalog.Update _ _ _) as [[funcInfo|err] wd];
      intros H; inversion H; subst.
    + eapply settled_after; [exact Hg | apply store_converted_settled].
    + apply grown_settled. eapply grown_trans; [exact Hg | apply grown_AddError].
Qed.

Lemma Read_settled (r : FunctionResource) (ctx : context.Context)
      (req : resource.ReadRequest) (resp resp' : resource.Response)
      (st st' : St) :
  Read' r ctx req resp st = Some (resp', st') -> settled resp resp'.
Proof.
  rewrite Read_whole. pose proof (Read_gates r req resp) as Hg.
  destruct (Read_prepare r req resp) as [resp1|[[w stateFunc] resp0]];
    destruct Hg as [Hg Herr].
  - intros H. inversion H; subst. now apply grown_settled.
  - cbv zeta. destruct (catalog.GetByName _ _ _) as [[funcInfo|err] wd];
      intros H; inversion H; subst.
    + eapply settled_after; [exact Hg | apply store_converted_settled].
    + destruct (apierr.IsMissing err).
      * eapply settled_after; [exact Hg|]. split.
        -- exists []. cbn. now rewrite app_nil_r.
        -- unfold resource.HasError, resource.with_State in *.
           cbn [resource.Diagnostics]. intros Hx. congruence.
      * apply grown_settled. eapply grown_trans; [exact Hg | apply grown_AddError].
Qed.

Lemma Delete_grown (r : FunctionResource) (ctx : context.Context)
      (req : resource.DeleteRequest) (resp resp' : resource.Response)
      (st st' : St) :
  Delete r ctx req resp st = Some (resp', st') -> grown resp resp'.
Proof.
  rewrite Delete_whole. pose proof (Delete_gates r req resp) as Hg.
  destruct (Delete_prepare r req resp) as [resp1|[[w deleteReq] resp0]].
  - destruct Hg as [Hg _]. intros H. inversion H; subst. exact Hg.
  - destruct Hg as (Hg & _ & _). cbv zeta.
    destruct (catalog.DeleteByName _ _ _) as [[e|] wd];
      intros H; inversion H; subst; [|exact Hg].
    destruct (apierr.IsMissing e); [exact Hg|].
    eapply grown_trans; [exact Hg | apply grown_AddError].
Qed.

(** X3: a response that comes back with an error carries the state it came
    with.  Create, Update and Read write (or remove) state only on their
    last, error-free step, and Delete never touches it. *)
Theorem error_means_state_untouched
        (r : FunctionResource) (ctx : context.Context)
        (creq : resource.CreateRequest) (ureq : resource.UpdateRequest)
        (rreq : resource.ReadRequest) (dreq : resource.DeleteRequest)
        (resp resp' : resource.Response) (st st' : St) :
  Create' r ctx creq resp st = Some (resp', st')
  \/ Update' r ctx ureq resp st = Some (resp', st')
  \/ Read' r ctx rreq resp st = Some (resp', st')
  \/ Delete r ctx dreq resp st = Some (resp', st') ->
  resource.HasError resp' = true ->
  resource.State resp' = resource.State resp.
Proof.
  intros [H | [H | [H | H]]] Herr.
  - now apply (Create_settled _ _ _ _ _ _ _ H).
  - now apply (Update_settled _ _ _ _ _ _ _ H).
  - now apply (Read_settled _ _ _ _ _ _ _ H).
  - now apply (Delete_grown _ _ _ _ _ _ _ H).
Qed.

(** X4: no method drops or reorders a diagnostic: the diagnostics it
    returns are the ones it was given, followed by what it added. *)
Theorem diagnostics_only_grow
        (r : FunctionResource) (ctx : context.Context)
        (creq : resource.CreateRequest) (ureq : resource.UpdateRequest)
        (rreq : resource.ReadRequest) (dreq : resource.DeleteRequest)
        (resp resp' : resource.Response) (st st' : St) :
  Create' r ctx creq resp st = Some (resp', st')
  \/ Update' r ctx ureq resp st = Some (resp', st')
  \/ Read' r ctx rreq resp st = Some (resp', st')
  \/ Delete r ctx dreq resp st = Some (resp', st') ->
  exists added,
    resource.Diagnostics resp' = resource.Diagnostics resp ++ added.
Proof.
  intros [H | [H | [H | H]]].
  - now apply (Create_settled _ _ _ _ _ _ _ H).
  - now apply (Update_settled _ _ _ _ _ _ _ H).
  - now apply (Read_settled _ _ _ _ _ _ _ H).
  - now apply (Delete_grown _ _ _ _ _ _ _ H).
Qed.

Lemma null_is_conversion_error (resp : resource.Response) :
  resource.HasError (resource.Append resp [tfsdk.conversion_error]) = true.
Proof. rewrite HasError_resource_Append. apply orb_true_r. Qed.

Lemma store_converted_run (funcInfo : catalog.FunctionInfo)
      (target : catalog_tf.FunctionInfo) (resp : resource.Response) :
  store funcInfo target resp
  = let '(converted, d) := GoSdkToTfSdkStruct funcInfo target in
    if resource.HasError (resource.Append resp d)
    then resource.Append resp d
    else resource.mk_Response
           (tfsdk.mk_State (Some converted))
           (resource.Diagnostics (resource.Append resp d)).
Proof.
  unfold store_converted.
  destruct (GoSdkToTfSdkStruct funcInfo target) as [converted d].
  destruct (resource.HasError _); [reflexivity|].
  unfold tfsdk.Set_. now rewrite Append_nil_r.
Qed.

(** X5: Update makes exactly one remote call, the update itself, with the
    request the converter built from the plan, and never polls.  If the call
    fails the response gains one error diagnostic, "failed to update
    function" with the remote error's text, and keeps its state; if it
    succeeds the answered object is converted over the plan and stored,
    unless the conversion reported an error. *)
Theorem Update_run (r : FunctionResource) (ctx : context.Context)
        (req : resource.UpdateRequest) (resp resp0 : resource.UpdateResponse)
        (st : St) (w : WorkspaceClient) (planFunc : catalog_tf.FunctionInfo)
        (updateReq : UpdateFunction)
        (res : catalog.FunctionInfo + go_error) (wd : W) :
  Update_prepare' r req resp = inr (w, planFunc, updateReq, resp0) ->
  catalog.Update (databricks.Functions w) updateReq (world st) = (res, wd) ->
  tfsdk.Raw (resource.Plan_ req) = Some planFunc
  /\ updateReq = fst (TfSdkToGoSdkStruct_update planFunc zero_UpdateFunction)
  /\ Update' r ctx req resp st
     = Some (match res with
             | inr err =>
                 resource.mk_Response
                   (resource.State resp)
                   (resource.Diagnostics resp0
                    ++ [diag.NewErrorDiagnostic "failed to update function"
                                                (Error err)])
             | inl funcInfo =>
                 let '(converted, d) := GoSdkToTfSdkStruct funcInfo planFunc in
                 if resource.HasError (resource.Append resp0 d)
                 then resource.Append resp0 d
                 else resource.mk_Response
                        (tfsdk.mk_State (Some converted))
                        (resource.Diagnostics (resource.Append resp0 d))
             end,
             mk_St wd (clock st)
                   (calls st ++ [(clock st, CallUpdate updateReq res)])).
Proof.
  intros Hprep Hcall.
  pose proof (Update_gates r req resp) as Hg. rewrite Hprep in Hg.
  destruct Hg as [[Hstate _] Hno].
  split; [|split].
  - unfold Update_prepare, tfsdk.Get in Hprep.
    destruct (common.GetWorkspaceClient (Client r)) as [w' diags].
    destruct (resource.HasError (resource.Append resp diags)); [discriminate|].
    destruct (tfsdk.Raw (resource.Plan_ req)) as [v|].
    + destruct (resource.HasError _); [discriminate|].
      destruct (TfSdkToGoSdkStruct_update v zero_UpdateFunction) as [u d2].
      destruct (resource.HasError _); [discriminate|].
      inversion Hprep; subst. reflexivity.
    + rewrite null_is_conversion_error in Hprep. discriminate.
  - unfold Update_prepare in Hprep.
    destruct (common.GetWorkspaceClient (Client r)) as [w' diags].
    destruct (resource.HasError (resource.Append resp diags)); [discriminate|].
    destruct (tfsdk.Get _ _) as [v d1].
    destruct (resource.HasError _); [discriminate|].
    destruct (TfSdkToGoSdkStruct_update v zero_UpdateFunction) as [u d2] eqn:Hu.
    destruct (resource.HasError _); [discriminate|].
    inversion Hprep; subst. now rewrite Hu.
  - rewrite Update_whole, Hprep, Hcall.
    destruct res as [funcInfo|err].
    + now rewrite store_converted_run.
    + now rewrite (AddError_response _ _ _ Hno), Hstate.
Qed.

(** X6: when the fetch of Read succeeds, Read has made that one look-up,
    keyed by the [name] attribute of the stored state, and answers the
    fetched object converted over the stored struct as the new state, unless
    the conversion reported an error, in which case only the diagnostics
    change. *)
Theorem Read_fetch_success (r : FunctionResource) (ctx : context.Context)
        (req : resource.ReadRequest) (resp resp0 : resource.ReadResponse)
        (st : St) (w : WorkspaceClient) (stateFunc : catalog_tf.FunctionInfo)
        (funcInfo : catalog.FunctionInfo) (wd : W) :
  Read_prepare r req resp = inr (w, stateFunc, resp0) ->
  catalog.GetByName (databricks.Functions w)
                    (types.ValueString (catalog_tf.Name stateFunc)) (world st)
  = (inl funcInfo, wd) ->
  tfsdk.Raw (resource.State_ req) = Some stateFunc
  /\ Read' r ctx req resp st
     = Some (let '(converted, d) := GoSdkToTfSdkStruct funcInfo stateFunc in
             if resource.HasError (resource.Append resp0 d)
             then resource.Append resp0 d
             else resource.mk_Response
                    (tfsdk.mk_State (Some converted))
                    (resource.Diagnostics (resource.Append resp0 d)),
             mk_St wd (clock st)
                   (calls st
                    ++ [(clock st,
                         CallGetByName
                           (types.ValueString (catalog_tf.Name stateFunc))
                           (inl funcInfo))])).
Proof.
  intros Hprep Hcall. split.
  - unfold Read_prepare, tfsdk.Get in Hprep.
    destruct (common.GetWorkspaceClient (Client r)) as [w' diags].
    destruct (resource.HasError (resource.Append resp diags)); [discriminate|].
    destruct (tfsdk.Raw (resource.State_ req)) as [v|].
    + destruct (resource.HasError _); [discriminate|].
      inversion Hprep; subst. reflexivity.
    + rewrite null_is_conversion_error in Hprep. discriminate.
  - rewrite Read_whole, Hprep. cbv zeta. rewrite Hcall.
    now rewrite store_converted_run.
Qed.

(** X7: Delete always returns, with the state it was given and the clock
    unmoved.  It makes no remote call, or exactly one: DeleteByName keyed by
    the [full_name] attribute of the stored state (the empty string when the
    state is null or [full_name] has no known value). *)
Theorem Delete_calls (r : FunctionResource) (ctx : context.Context)
        (req : resource.DeleteRequest) (resp : resource.DeleteResponse) (st : St) :
  exists resp' st',
    Delete r ctx req resp st = Some (resp', st')
    /\ resource.State resp' = resource.State resp
    /\ clock st' = clock st
    /\ ((new_calls st st' = [] /\ world st' = world st)
        \/ exists res,
            new_calls st st'
            = [(clock st, CallDeleteByName (Delete_key req) res)]).
Proof.
  rewrite Delete_whole. pose proof (Delete_gates r req resp) as Hg.
  destruct (Delete_prepare r req resp) as [resp1|[[w deleteReq] resp0]].
  - destruct Hg as [[Hstate _] _].
    exists resp1, st. repeat split; auto. left. split; [apply new_calls_none | auto].
  - destruct Hg as ([Hstate _] & Hno & Hkey). cbv zeta. rewrite Hkey.
    destruct (catalog.DeleteByName _ _ _) as [res wd].
    eexists _, _. split; [reflexivity|]. split; [|split].
    + destruct res as [e|]; [|exact Hstate].
      destruct (apierr.IsMissing e); [exact Hstate|].
      now rewrite (AddError_response _ _ _ Hno).
    + reflexivity.
    + right. exists res. now apply new_calls_app.
Qed.

Lemma ImportState_run (r : FunctionResource) (ctx : context.Context)
      (id : string) (seed : resource.ImportStateResponse) :
  exists v,
    ImportState r ctx {| resource.ID := id |} seed
    = resource.mk_Response (tfsdk.mk_State (Some v)) (resource.Diagnostics seed)
    /\ catalog_tf.FullName v = types.StringValue id.
Proof.
  unfold ImportState, resource.ImportStatePassthroughID, tfsdk.SetAttribute.
  destruct seed as [[[[c s n f d]|]] diags]; cbn; eexists; split; reflexivity.
Qed.

(** X8: importing an ID adds no diagnostic, and a Delete on the imported
    state, once the client is there, sends DeleteByName with exactly that
    ID, whatever state the import started from. *)
Theorem Import_then_Delete (r : FunctionResource) (ctx : context.Context)
        (id : string) (seed : resource.ImportStateResponse)
        (resp : resource.DeleteResponse) (st : St) :
  resource.HasError
    (resource.Append resp (snd (common.GetWorkspaceClient (Client r)))) = false ->
  let imported :=
    ImportState r ctx {| resource.ID := id |} seed in
  resource.Diagnostics imported = resource.Diagnostics seed
  /\ exists resp' res wd,
      Delete r ctx {| resource.State__ := resource.State imported |} resp st
      = Some (resp',
              mk_St wd (clock st)
                    (calls st ++ [(clock st, CallDeleteByName id res)])).
Proof.
  intros Hno imported. subst imported.
  destruct (ImportState_run r ctx id seed) as (v & -> & Hfull).
  split; [reflexivity|]. cbn [resource.State].
  rewrite Delete_whole.
  pose proof (Delete_gates
                r {| resource.State__ := tfsdk.mk_State (Some v) |} resp) as Hg.
  unfold Delete_key in Hg. cbn [resource.State__ tfsdk.Raw] in Hg.
  rewrite Hfull in Hg. cbn [types.ValueString] in Hg.
  destruct (Delete_prepare _ _ _) as [resp1|[[w deleteReq] resp0]] eqn:Hprep.
  - exfalso. unfold Delete_prepare, tfsdk.GetAttribute in Hprep.
    destruct (common.GetWorkspaceClient (Client r)) as [w diags].
    cbn [snd] in Hno. rewrite Hno in Hprep.
    cbn [resource.State__ tfsdk.Raw] in Hprep.
    change (tfsdk.attribute "full_name" v)
      with (Some (catalog_tf.FullName v)) in Hprep.
    cbv iota beta in Hprep. rewrite Append_nil_r, Hno in Hprep. discriminate.
  - destruct Hg as (_ & _ & Hkey). cbv zeta. rewrite Hkey.
    destruct (catalog.DeleteByName _ _ _) as [res wd]. eauto.
Qed.

Lemma Read_prepare_state (r : FunctionResource) (req : resource.ReadRequest)
      (resp resp0 : resource.ReadResponse) (w : WorkspaceClient)
      (stateFunc : catalog_tf.FunctionInfo) :
  Read_prepare r req resp = inr (w, stateFunc, resp0) ->
  tfsdk.Raw (resource.State_ req) = Some stateFunc.
Proof.
  unfold Read_prepare, tfsdk.Get. intros Hprep.
  destruct (common.GetWorkspaceClient (Client r)) as [w' diags].
  destruct (resource.HasError (resource.Append resp diags)); [discriminate|].
  destruct (tfsdk.Raw (resource.State_ req)) as [v|].
  - destruct (resource.HasError _); [discriminate|].
    inversion Hprep; subst. reflexivity.
  - rewrite null_is_conversion_error in Hprep. discriminate.
Qed.

(** X12: Read always returns, with the clock unmoved.  It makes no remote
    call, and then leaves the state as it was, or exactly one: a look-up
    keyed by the [name] attribute of the stored state, for every stored
    state and whatever its [full_name] holds. *)
Theorem Read_calls (r : FunctionResource) (ctx : context.Context)
        (req : resource.ReadRequest) (resp : resource.ReadResponse) (st : St) :
  exists resp' st',
    Read' r ctx req resp st = Some (resp', st')
    /\ clock st' = clock st
    /\ ((new_calls st st' = [] /\ world st' = world st
         /\ resource.State resp' = resource.State resp)
        \/ exists v res,
            tfsdk.Raw (resource.State_ req) = Some v
            /\ new_calls st st'
               = [(clock st,
                   CallGetByName (types.ValueString (catalog_tf.Name v)) res)]).
Proof.
  rewrite Read_whole. pose proof (Read_gates r req resp) as Hg.
  destruct (Read_prepare r req resp) as [resp1|[[w stateFunc] resp0]] eqn:Hprep.
  - destruct Hg as [[Hstate _] _].
    exists resp1, st. split; [reflexivity|]. split; [reflexivity|].
    left. split; [apply new_calls_none | auto].
  - cbv zeta. destruct (catalog.GetByName _ _ _) as [res wd].
    eexists _, _. split; [reflexivity|]. split; [reflexivity|].
    right. exists stateFunc, res.
    split; [exact (Read_prepare_state _ _ _ _ _ _ Hprep) | now apply new_calls_app].
Qed.

End Methods.

(** ** A function that never shows up *)

Section NeverVisible.

Context {W CreateFunctionRequest UpdateFunction : Type}.
Local Abbreviation St := (St W CreateFunctionRequest UpdateFunction).

Variable interval : positive.
Variable w : databricks.WorkspaceClient W CreateFunctionRequest UpdateFunction.
Variable funcInfo : catalog.FunctionInfo.

(** The worlds the wait can be in, all of which answer "missing". *)
Variable Inv : W -> Prop.
Hypothesis always_missing :
  forall wd, Inv wd ->
    exists e wd',
      catalog.GetByName (databricks.Functions w) (catalog.FullName funcInfo) wd
      = (inr e, wd')
      /\ apierr.IsMissing e = true /\ Inv wd'.

Lemma poll_loop_always_missing (fuel : nat) :
  forall (deadline : Z) (st : St),
    Inv (world st) ->
    deadline - clock st < Z.of_nat fuel * Z.pos interval ->
    (0 < fuel)%nat ->
    exists st',
      retries.poll_loop interval fuel deadline
                        (waitForFunction_attempt w funcInfo) st
      = Some (inr (retries.TimedOut (not_yet_available funcInfo)), st').
Proof.
  induction fuel as [|fuel IH]; intros deadline st Hinv Hfuel Hpos; [lia|].
  rewrite poll_loop_step.
  destruct (always_missing _ Hinv) as (e & wd' & -> & -> & Hinv').
  destruct (deadline <=? clock st + Z.pos interval) eqn:Hdl; [eauto|].
  apply Z.leb_gt in Hdl. apply IH; cbn; [assumption | lia | lia].
Qed.

End NeverVisible.

(** X11: if every look-up of the function is answered "missing", the wait
    fails with the time-out diagnostic and leaves [funcInfo] alone.  It
    returns exactly at its deadline, never before: 5 minutes after its start
    when the caller's context has no end of its own.  Its look-ups stop with
    the first one that is less than an interval short of the deadline. *)
Theorem never_visible_times_out
        {W CreateFunctionRequest UpdateFunction : Type}
        (interval : positive)
        (w : databricks.WorkspaceClient W CreateFunctionRequest UpdateFunction)
        (funcInfo : catalog.FunctionInfo) (Inv : W -> Prop)
        (ctx : context.Context)
        (st : St W CreateFunctionRequest UpdateFunction) :
  (forall wd, Inv wd ->
     exists e wd',
       catalog.GetByName (databricks.Functions w) (catalog.FullName funcInfo) wd
       = (inr e, wd')
       /\ apierr.IsMissing e = true /\ Inv wd') ->
  Inv (world st) ->
  exists st',
    waitForFunction interval ctx w funcInfo st
    = Some ((funcInfo, [stabilization_timeout funcInfo]), st')
    /\ clock st' = Z.max (clock st) (wait_deadline ctx st)
    /\ (context.done_at ctx = None ->
        clock st' = clock st + waitForFunction_timeout)
    /\ wait_deadline ctx st
       <= clock st + Z.of_nat (length (new_calls st st')) * Z.pos interval
    /\ (length (new_calls st st') = 1%nat
        \/ clock st + (Z.of_nat (length (new_calls st st')) - 1) * Z.pos interval
           < wait_deadline ctx st).
Proof.
  intros Hmissing Hinv.
  destruct (poll_loop_always_missing
              interval w funcInfo Inv Hmissing
              (retries.attempts_bound interval waitForFunction_timeout)
              (wait_deadline ctx st) st Hinv)
    as [st1 Hloop].
  { apply attempts_bound_enough. }
  { unfold retries.attempts_bound. lia. }
  destruct (waitForFunction_run interval w funcInfo ctx st)
    as (rs & r & out & st' & Hrun & Hcalls & _ & Hlate & Hend).
  assert (Hout : out = inr (retries.TimedOut (not_yet_available funcInfo))
                 /\ st' = st1).
  { unfold waitForFunction, retries.Poll, bind, now in Hrun.
    unfold wait_deadline in Hloop. rewrite Hloop in Hrun.
    inversion Hend; subst; cbn in Hrun; inversion Hrun; auto. }
  destruct Hout as [-> ->].
  exists st1. split; [exact Hrun|].
  rewrite (new_calls_app _ _ _ Hcalls), poll_calls_length, length_app.
  cbn [length]. rewrite Nat2Z.inj_add. cbn [Z.of_nat Pos.of_succ_nat].
  inversion Hend as [| |e Hmiss Hdl]; subst.
  assert (Hlen : 0 <= Z.of_nat (length rs) * Z.pos interval) by lia.
  assert (Hclock : clock st1 = Z.max (clock st) (wait_deadline ctx st)).
  { destruct Hlate as [-> | Hlate]; [cbn in *|]; lia. }
  split; [lia|]. split; [|split].
  - intros Hnone.
    assert (Hd : wait_deadline ctx st = clock st + waitForFunction_timeout).
    { unfold wait_deadline, context.deadline. cbn. now rewrite Hnone. }
    assert (0 < waitForFunction_timeout) by reflexivity. lia.
  - lia.
  - destruct Hlate as [-> | Hlate]; [left; reflexivity | right; lia].
Qed.

(** ** Configure *)

(** X9: however often the framework configures the resource, the client is
    obtained at most once.  A resource that has a client keeps it and every
    response comes back untouched; a fresh one ends with the first client
    that [ConfigureResource] yields, skipping calls without provider data
    and never consulting [ConfigureResource] after it yielded a client. *)
Theorem Configure_keeps_first_client
        {W CreateFunctionRequest UpdateFunction ProviderData : Type}
        (ConfigureResource :
           configure.Request ProviderData -> configure.Response
           -> option (common.DatabricksClient W CreateFunctionRequest UpdateFunction)
              * configure.Response)
        (ctx : context.Context)
        (calls : list (configure.Request ProviderData * configure.Response))
        (r : FunctionResourcePtr) :
  Configure_each ConfigureResource r ctx calls
  = match ClientPtr r with
    | Some _ => (r, map snd calls)
    | None =>
        let '(c, resps) := first_client ConfigureResource calls in
        ({| ClientPtr := c |}, resps)
    end.
Proof.
  revert r. induction calls as [|[req resp] rest IH]; intros [[c|]];
    cbn [Configure_each first_client ClientPtr map snd]; try reflexivity.
  - unfold Configure. cbn [ClientPtr]. rewrite IH. reflexivity.
  - unfold Configure. cbn [ClientPtr].
    destruct (configure.ProviderData_ req) as [data|].
    + destruct (ConfigureResource req resp) as [[c|] resp']; rewrite IH;
        cbn [ClientPtr]; [reflexivity|].
      now destruct (first_client ConfigureResource rest).
    + rewrite IH. cbn [ClientPtr].
      now destruct (first_client ConfigureResource rest).
Qed.

(** ** The acceptance check *)

(** X10: the check of the users data source passes exactly when the state
    has a root module holding the resource [data.databricks_data_users.this]
    with a primary instance whose [users.#] attribute is present and not the
    empty string.  A count of ["0"] therefore passes.  With a root module
    but without the resource it fails with "data not found in state". *)
Theorem users_check_passes_iff
        (format_map : list (string * string) -> string) (s : terraform.State) :
  (acceptance.TestAccDataSourceDataUsers_Check format_map s = acceptance.Passed
   <-> exists root r primary count,
        terraform.RootModule s = Some root
        /\ terraform.lookup "data.databricks_data_users.this"
                            (terraform.Resources root) = Some (Some r)
        /\ terraform.Primary r = Some primary
        /\ terraform.lookup "users.#" (terraform.Attributes primary) = Some count
        /\ count <> EmptyString)
  /\ (forall root,
         terraform.RootModule s = Some root ->
         terraform.lookup "data.databricks_data_users.this"
                          (terraform.Resources root) = None ->
         acceptance.TestAccDataSourceDataUsers_Check format_map s
         = acceptance.Failed (fmt.Errorf "data not found in state"))
  /\ acceptance.TestAccDataSourceDataUsers_Check format_map Scenario2.no_users
     = acceptance.Passed.
Proof.
  split; [|split].
  - unfold acceptance.TestAccDataSourceDataUsers_Check, terraform.index. split.
    + destruct (terraform.RootModule s) as [root|]; [|discriminate].
      destruct (terraform.lookup _ (terraform.Resources root)) as [[r|]|]
        eqn:Hres; try discriminate.
      destruct (terraform.Primary r) as [primary|] eqn:Hprimary; [|discriminate].
      destruct (terraform.lookup "users.#" _) as [count|] eqn:Hcount;
        [|discriminate].
      destruct (String.eqb_spec count "") as [|Hne]; [discriminate|].
      intros _. exists root, r, primary, count. repeat split; auto.
    + intros (root & r & primary & count & -> & -> & -> & -> & Hne).
      destruct (String.eqb_spec count "") as [|_]; [contradiction | reflexivity].
  - intros root Hroot Habsent.
    unfold acceptance.TestAccDataSourceDataUsers_Check.
    now rewrite Hroot, Habsent.
  - reflexivity.
Qed.

(** ** The further theorems at concrete inputs *)

Lemma client_error_stops_every_method_witness :
  Create Fake.one_second Fake.to_create Fake.to_tf Fake.zero_create
         Scenario2.broken context.Background Scenario.create_request
         Fake.empty_response (Fake.start Scenario.present)
  = Some (resource.mk_Response (tfsdk.mk_State None) [Scenario2.no_client_error],
          Fake.start Scenario.present)
  /\ Update Fake.to_update Fake.to_tf ("", "")
            Scenario2.broken context.Background Scenario2.update_request
            Fake.empty_response (Fake.start Scenario.present)
     = Some (resource.mk_Response (tfsdk.mk_State None) [Scenario2.no_client_error],
             Fake.start Scenario.present)
  /\ Read Fake.to_tf Scenario2.broken context.Background Scenario.read_request
          Fake.empty_response (Fake.start Scenario.present)
     = Some (resource.mk_Response (tfsdk.mk_State None) [Scenario2.no_client_error],
             Fake.start Scenario.present)
  /\ Delete Scenario2.broken context.Background Scenario.delete_request
            Fake.empty_response (Fake.start Scenario.present)
     = Some (resource.mk_Response (tfsdk.mk_State None) [Scenario2.no_client_error],
             Fake.start Scenario.present)
  /\ resource.HasError
       (resource.Append Fake.empty_response [Scenario2.no_client_error]) = true.
Proof.
  exact (client_error_stops_every_method
           Fake.one_second Fake.to_create Fake.to_update Fake.to_tf
           Fake.zero_create ("", "")
           Scenario2.broken context.Background Scenario.create_request
           Scenario2.update_request Scenario.read_request Scenario.delete_request
           Fake.empty_response (Fake.start Scenario.present)
           (or_intror eq_refl)).
Defined.

Lemma error_means_state_untouched_witness :
  Scenario.read Scenario.read_request Scenario.stored_response
                (Fake.start Scenario.down)
  = Some (resource.mk_Response
            Scenario.stored_state
            [diag.NewErrorDiagnostic "failed to get function"
                                     "503 service unavailable"],
          mk_St Scenario.down 0 [(0, CallGetByName "f" (inr Fake.unavailable))])
  /\ resource.State
       (resource.mk_Response
          Scenario.stored_state
          [diag.NewErrorDiagnostic "failed to get function"
                                   "503 service unavailable"])
     = resource.State Scenario.stored_response.
Proof.
  split; [vm_compute; reflexivity|].
  apply (error_means_state_untouched
           Fake.one_second Fake.to_create Fake.to_update Fake.to_tf
           Fake.zero_create ("", "")
           Fake.client context.Background Scenario.create_request
           Scenario2.update_request Scenario.read_request Scenario.delete_request
           Scenario.stored_response
           (resource.mk_Response
              Scenario.stored_state
              [diag.NewErrorDiagnostic "failed to get function"
                                       "503 service unavailable"])
           (Fake.start Scenario.down)
           (mk_St Scenario.down 0 [(0, CallGetByName "f" (inr Fake.unavailable))])).
  - right. right. left. vm_compute. reflexivity.
  - reflexivity.
Defined.

Lemma diagnostics_only_grow_witness :
  exists added,
    resource.Diagnostics
      (resource.mk_Response
         (tfsdk.mk_State None)
         [diag.NewErrorDiagnostic "failed to create function"
                                  "503 service unavailable"])
    = resource.Diagnostics Fake.empty_response ++ added.
Proof.
  apply (diagnostics_only_grow
           Fake.one_second Fake.to_create Fake.to_update Fake.to_tf
           Fake.zero_create ("", "")
           Fake.client context.Background Scenario.create_request
           Scenario2.update_request Scenario.read_request Scenario.delete_request
           Fake.empty_response
           (resource.mk_Response
              (tfsdk.mk_State None)
              [diag.NewErrorDiagnostic "failed to create function"
                                       "503 service unavailable"])
           (Fake.start Scenario.down)
           (mk_St Scenario.down 0
                  [(0, CallCreate
                         (fst (Fake.to_create Fake.planned Fake.zero_create))
                         (inr Fake.unavailable))])).
  left. vm_compute. reflexivity.
Defined.

Lemma Update_run_witness :
  tfsdk.Raw (resource.Plan_ Scenario2.update_request) = Some Fake.stored
  /\ ("main.default.f", "RETURN 1") = fst (Fake.to_update Fake.stored ("", ""))
  /\ Scenario2.update Scenario2.update_request Scenario.stored_response
                      (Fake.start Scenario.present)
     = Some (Scenario.stored_response,
             mk_St Scenario.present 0
                   [(0, CallUpdate ("main.default.f", "RETURN 1")
                                   (inl Fake.remote_f))]).
Proof.
  apply (Update_run
           Fake.to_update Fake.to_tf ("", "")
           Fake.client context.Background Scenario2.update_request
           Scenario.stored_response Scenario.stored_response
           (Fake.start Scenario.present) Fake.workspace Fake.stored
           ("main.default.f", "RETURN 1") (inl Fake.remote_f) Scenario.present);
    vm_compute; reflexivity.
Defined.

Lemma Read_fetch_success_witness :
  tfsdk.Raw (resource.State_ Scenario.read_request) = Some Fake.stored
  /\ Scenario.read Scenario.read_request Scenario.stored_response
                   (Fake.start Scenario2.bare)
     = Some (resource.mk_Response
               (tfsdk.mk_State (Some (fst (Fake.to_tf Scenario2.bare_f Fake.stored))))
               [],
             mk_St Scenario2.bare 0
                   [(0, CallGetByName "f" (inl Scenario2.bare_f))]).
Proof.
  apply (Read_fetch_success
           Fake.to_tf Fake.client context.Background Scenario.read_request
           Scenario.stored_response Scenario.stored_response
           (Fake.start Scenario2.bare) Fake.workspace Fake.stored
           Scenario2.bare_f Scenario2.bare);
    vm_compute; reflexivity.
Defined.

Lemma Import_then_Delete_witness :
  resource.Diagnostics
    (ImportState Fake.client context.Background
                 {| resource.ID := "main.default.f" |} Fake.empty_response)
  = resource.Diagnostics Fake.empty_response
  /\ exists resp' res wd,
      Delete Fake.client context.Background
             {| resource.State__ := Scenario.imported |}
             Fake.empty_response (Fake.start Scenario.present)
      = Some (resp',
              mk_St wd 0 [(0, CallDeleteByName "main.default.f" res)]).
Proof.
  exact (Import_then_Delete
           Fake.client context.Background "main.default.f" Fake.empty_response
           Fake.empty_response (Fake.start Scenario.present) eq_refl).
Defined.

Lemma never_visible_times_out_witness :
  exists st',
    Scenario.wait (Fake.start Scenario.absent)
    = Some ((Fake.remote_f, [stabilization_timeout Fake.remote_f]), st')
    /\ clock st' = Z.max 0 (wait_deadline context.Background
                                          (Fake.start Scenario.absent))
    /\ (context.done_at context.Background = None ->
        clock st' = 0 + waitForFunction_timeout)
    /\ wait_deadline context.Background (Fake.start Scenario.absent)
       <= 0 + Z.of_nat (length (new_calls (Fake.start Scenario.absent) st'))
              * Z.pos Fake.one_second
    /\ (length (new_calls (Fake.start Scenario.absent) st') = 1%nat
        \/ 0 + (Z.of_nat (length (new_calls (Fake.start Scenario.absent) st')) - 1)
               * Z.pos Fake.one_second
           < wait_deadline context.Background (Fake.start Scenario.absent)).
Proof.
  apply (never_visible_times_out
           Fake.one_second Fake.workspace Fake.remote_f
           (fun wd => wd = Scenario.absent) context.Background
           (Fake.start Scenario.absent)).
  - intros wd ->. exists Fake.not_found, Scenario.absent.
    repeat split; reflexivity.
  - reflexivity.
Defined.
